(** * JIRA to DOCX automation: a shallow embedding of [jira_automation.py]

    The script fetches issues from a tracker (one HTTP GET), normalises
    them, asks a local LLM endpoint for a summary (one HTTP POST) and
    renders a Word document.  The embedding follows the Python source
    function by function:

    - Python values are an inductive type [pyval]; dictionaries are
      association lists because insertion order is observable;
    - a raised exception is a value [Raise e] of the type [result];
    - printing, the two HTTP calls and [doc.save] are effects: a
      computation takes the files on disk and gives an [outcome], that is
      a result, the files afterwards and the events it emitted, in order;
      what the servers answer is read from an [environment];
    - [try ... except] is the combinator [try_except].

    Strings are [string]; one [ascii] stands for one code point below 256.
    The exceptions are those that are instances of [Exception], which is
    what the [except] clauses of the script catch; [print] does not fail. *)

From Stdlib Require Import ZArith Lia PrimFloat Ascii.
From stdpp Require Import gmap strings list pretty.

Local Open Scope Z_scope.

(** ** Python values *)

#[local] Set Warnings "-register-all".

Inductive pyval : Type :=
| PNone
| PBool (b : bool)
| PInt (n : Z)
| PFloat (f : float)
| PStr (s : string)
| PList (l : list pyval)
| PDict (d : list (string * pyval)).

(** ** Exceptions *)

(** The classes the script distinguishes.  [RequestException] stands for
    [requests.exceptions.RequestException] and all of its subclasses;
    every other class is a subclass of [Exception] that is not one of
    those. *)
Inductive exn_class : Type :=
| RequestException
| AttributeError
| TypeError
| KeyError
| IndexError
| OSError
| ValueError
| Exception_.

(** [exn_msg] is what [str(e)] gives. *)
Record exn : Type := Exn { exn_cls : exn_class; exn_msg : string }.

Definition is_RequestException (e : exn) : bool :=
  match exn_cls e with RequestException => true | _ => false end.

Inductive result (A : Type) : Type :=
| Ok (a : A)
| Raise (e : exn).

Arguments Ok {A} a.
Arguments Raise {A} e.

Definition rbind {A B : Type} (r : result A) (k : A -> result B) : result B :=
  match r with
  | Ok a => k a
  | Raise e => Raise e
  end.

Declare Scope py_scope.
Delimit Scope py_scope with py.

Notation "'let?' x ':=' r 'in' k" := (rbind r (fun x => k))
  (at level 10, x name, r at level 100, k at level 200,
   format "'[v' 'let?'  x  ':='  r  'in' '/' k ']'") : py_scope.

Local Open Scope py_scope.

(** ** Built-in operations of the interpreter *)

Definition nl : string := String (ascii_of_nat 10) "".
Definition dquote : string := String (ascii_of_nat 34) "".

(** [str(n)] for an integer: its decimal numeral. *)
Definition int_str (n : Z) : string := pretty n.

Arguments int_str n : simpl never.

(** [type(v).__name__] *)
Definition type_name (v : pyval) : string :=
  match v with
  | PNone => "NoneType"
  | PBool _ => "bool"
  | PInt _ => "int"
  | PFloat _ => "float"
  | PStr _ => "str"
  | PList _ => "list"
  | PDict _ => "dict"
  end.

Definition no_attribute (v : pyval) (attr : string) : exn :=
  Exn AttributeError
      ("'" +:+ type_name v +:+ "' object has no attribute '" +:+ attr +:+ "'").

Fixpoint dict_lookup (k : string) (d : list (string * pyval)) : option pyval :=
  match d with
  | [] => None
  | (k', v) :: d' => if String.eqb k k' then Some v else dict_lookup k d'
  end.

(** [v.get(k, default)]: only dictionaries have the method. *)
Definition py_get (v : pyval) (k : string) (default : pyval) : result pyval :=
  match v with
  | PDict d =>
      match dict_lookup k d with
      | Some x => Ok x
      | None => Ok default
      end
  | _ => Raise (no_attribute v "get")
  end.

(** [v[k]] for a string key [k]. *)
Definition py_getitem (v : pyval) (k : string) : result pyval :=
  match v with
  | PDict d =>
      match dict_lookup k d with
      | Some x => Ok x
      | None => Raise (Exn KeyError ("'" +:+ k +:+ "'"))
      end
  | PList _ =>
      Raise (Exn TypeError "list indices must be integers or slices, not str")
  | PStr _ =>
      Raise (Exn TypeError "string indices must be integers, not 'str'")
  | _ =>
      Raise (Exn TypeError ("'" +:+ type_name v +:+ "' object is not subscriptable"))
  end.

(** [len(v)] *)
Definition py_len (v : pyval) : result Z :=
  match v with
  | PStr s => Ok (Z.of_nat (String.length s))
  | PList l => Ok (Z.of_nat (length l))
  | PDict d => Ok (Z.of_nat (length d))
  | _ => Raise (Exn TypeError
                  ("object of type '" +:+ type_name v +:+ "' has no len()"))
  end.

(** Truth value, as tested by [not v]. *)
Definition py_truthy (v : pyval) : bool :=
  match v with
  | PNone => false
  | PBool b => b
  | PInt n => negb (n =? 0)
  | PFloat f => negb (PrimFloat.eqb f 0%float)
  | PStr s => negb (String.eqb s "")
  | PList l => match l with [] => false | _ => true end
  | PDict d => match d with [] => false | _ => true end
  end.

Fixpoint chars (s : string) : list pyval :=
  match s with
  | EmptyString => []
  | String c s' => PStr (String c "") :: chars s'
  end.

(** The elements [for x in v] goes through. *)
Definition py_iter (v : pyval) : result (list pyval) :=
  match v with
  | PList l => Ok l
  | PStr s => Ok (chars s)
  | PDict d => Ok (map (fun kv => PStr (fst kv)) d)
  | _ => Raise (Exn TypeError
                  ("'" +:+ type_name v +:+ "' object is not iterable"))
  end.

(** [str.isspace] for one character: tab, LF, VT, FF, CR, the separators
    FS, GS, RS, US, space, NEL and the no-break space. *)
Definition py_isspace (c : ascii) : bool :=
  let n := nat_of_ascii c in
  ((9 <=? n)%nat && (n <=? 13)%nat)
  || ((28 <=? n)%nat && (n <=? 32)%nat)
  || (n =? 133)%nat
  || (n =? 160)%nat.

Fixpoint lstrip (s : string) : string :=
  match s with
  | EmptyString => EmptyString
  | String c s' => if py_isspace c then lstrip s' else s
  end.

Fixpoint rstrip (s : string) : string :=
  match s with
  | EmptyString => EmptyString
  | String c s' =>
      match rstrip s' with
      | EmptyString => if py_isspace c then EmptyString else String c EmptyString
      | r => String c r
      end
  end.

(** [s.strip()] without argument *)
Definition strip (s : string) : string := rstrip (lstrip s).

(** [v.strip()]: only strings have the method. *)
Definition py_strip (v : pyval) : result string :=
  match v with
  | PStr s => Ok (strip s)
  | _ => Raise (no_attribute v "strip")
  end.

(** [sep.join(l)] *)
Fixpoint str_join (sep : string) (l : list string) : string :=
  match l with
  | [] => ""
  | [x] => x
  | x :: l' => x +:+ sep +:+ str_join sep l'
  end.

(** [s * n] *)
Fixpoint str_repeat (s : string) (n : nat) : string :=
  match n with
  | O => ""
  | S n' => s +:+ str_repeat s n'
  end.

(** [needle in hay] *)
Fixpoint str_contains (needle hay : string) : bool :=
  String.prefix needle hay
  || match hay with
     | EmptyString => false
     | String _ hay' => str_contains needle hay'
     end.

(** What an f-string writes for an optional configuration value
    ([os.getenv] gives a string or [None]). *)
Definition fmt_opt (o : option string) : string :=
  match o with
  | Some s => s
  | None => "None"
  end.

(** [prefix + o] where [prefix] is a string: adding [None] is a type error. *)
Definition str_add_opt (prefix : string) (o : option string) : result string :=
  match o with
  | Some s => Ok (prefix +:+ s)
  | None =>
      Raise (Exn TypeError
               ("can only concatenate str (not " +:+ dquote +:+ "NoneType"
                +:+ dquote +:+ ") to str"))
  end.

(** ** The document library

    [python-docx] is modelled by the content it holds: a document is the
    list of its body elements in order, and the text of a heading, a
    paragraph or a cell is the text the library reads back from it.  An
    object the library hands back ([title], [issues_table]) is the
    position of the element in the body, so that a later assignment
    through it changes the document it belongs to.

    Every text goes through the same setter of a run: it walks over the
    value it is given, turns a tab into a tab element and a carriage
    return or a line feed into a line break (read back as a line feed),
    and collects everything else into text elements, which the XML
    library refuses when they hold a control character. *)
Module Docx.

Record table : Type :=
  Table { style : option string; cols : nat; rows : list (list string) }.

Inductive block : Type :=
| Heading (text : string) (level : Z) (alignment : option Z)
| Tbl (t : table)
| Paragraph (text : string)
| PageBreak.

Definition document : Type := list block.

Definition TAB : string := String (ascii_of_nat 9) "".
Definition LF : string := String (ascii_of_nat 10) "".
Definition CR : string := String (ascii_of_nat 13) "".

(** The characters the XML library takes in the text of an element:
    all but the control characters other than tab, line feed and
    carriage return. *)
Definition xml_compatible_char (c : ascii) : bool :=
  let n := nat_of_ascii c in
  (32 <=? n)%nat || (n =? 9)%nat || (n =? 10)%nat || (n =? 13)%nat.

Fixpoint xml_compatible (s : string) : bool :=
  match s with
  | EmptyString => true
  | String c s' => xml_compatible_char c && xml_compatible s'
  end.

(** The error of the XML library for a text it refuses. *)
Definition xml_error : exn :=
  Exn ValueError
      "All strings must be XML compatible: Unicode or ASCII, no NULL bytes or control characters".

(** [_RunContentAppender.flush]: the collected text, if any, becomes a
    text element; [out] is the text of the run so far. *)
Definition flush (bfr out : string) : result string :=
  if String.eqb bfr "" then Ok out
  else if xml_compatible bfr then Ok (out +:+ bfr)
  else Raise xml_error.

(** [_RunContentAppender.add_char] for one element [x] of the value:
    [x == "\t"], then [x in "\r\n"], else collect. *)
Definition add_char (x : pyval) (bfr out : string) : result (string * string) :=
  match x with
  | PStr s =>
      if String.eqb s TAB then
        let? out := flush bfr out in
        Ok (EmptyString, out +:+ TAB)
      else if str_contains s (CR +:+ LF) then
        let? out := flush bfr out in
        Ok (EmptyString, out +:+ LF)
      else Ok (bfr +:+ s, out)
  | _ =>
      Raise (Exn TypeError
               ("'in <string>' requires string as left operand, not "
                +:+ type_name x))
  end.

(** [_RunContentAppender.add_text]: every element in turn, then a last
    flush. *)
Fixpoint add_text (items : list pyval) (bfr out : string) : result string :=
  match items with
  | [] => flush bfr out
  | x :: items' =>
      let? st := add_char x bfr out in
      add_text items' (fst st) (snd st)
  end.

(** [r.text = v] on a fresh run, and the text read back from it. *)
Definition run_text (v : pyval) : result string :=
  let? items := py_iter v in
  add_text items EmptyString EmptyString.

Arguments run_text v : simpl never.

(** [Document()] *)
Definition Document : document := [].

(** [doc.add_heading(text, level)] *)
Definition add_heading (doc : document) (text : string) (level : Z)
  : result (document * nat) :=
  if (0 <=? level) && (level <=? 9) then
    let? t := run_text (PStr text) in
    Ok (doc ++ [Heading t level None], length doc)
  else
    Raise (Exn ValueError
             ("level must be in range 0-9, got " +:+ int_str level)).

(** [h.alignment = a] *)
Definition set_alignment (doc : document) (h : nat) (a : Z) : document :=
  alter (fun b => match b with
                  | Heading t l _ => Heading t l (Some a)
                  | _ => b
                  end) h doc.

(** [doc.add_table(rows=r, cols=c)] *)
Definition add_table (doc : document) (r c : nat) : document * nat :=
  (doc ++ [Tbl (Table None c (replicate r (replicate c "")))], length doc).

(** [t.style = s] *)
Definition set_style (doc : document) (t : nat) (s : string) : document :=
  alter (fun b => match b with
                  | Tbl tb => Tbl (Table (Some s) (cols tb) (rows tb))
                  | _ => b
                  end) t doc.

Definition table_at (doc : document) (t : nat) : option table :=
  match doc !! t with
  | Some (Tbl tb) => Some tb
  | _ => None
  end.

(** [t.add_row()]: a row of empty cells, one per column; the result is
    the index of the new row. *)
Definition add_row (doc : document) (t : nat) : document * nat :=
  match table_at doc t with
  | Some tb =>
      (<[t := Tbl (Table (style tb) (cols tb)
                         (rows tb ++ [replicate (cols tb) ""]))]> doc,
       length (rows tb))
  | None => (doc, O)
  end.

(** [t.rows[r].cells[c].text = v].  The subscripts are evaluated before
    the assignment; the cell gets one run whose text is set to [v]. *)
Definition set_cell_text (doc : document) (t r c : nat) (v : pyval)
  : result document :=
  match table_at doc t with
  | Some tb =>
      match rows tb !! r with
      | Some row =>
          if (c <? length row)%nat then
            let? s := run_text v in
            Ok (<[t := Tbl (Table (style tb) (cols tb)
                                  (<[r := <[c := s]> row]> (rows tb)))]> doc)
          else Raise (Exn IndexError "tuple index out of range")
      | None => Raise (Exn IndexError "list index out of range")
      end
  | None => Raise (Exn IndexError "list index out of range")
  end.

(** [doc.add_paragraph(text)] *)
Definition add_paragraph (doc : document) (text : string) : result document :=
  let? t := run_text (PStr text) in
  Ok (doc ++ [Paragraph t]).

(** [doc.add_page_break()] *)
Definition add_page_break (doc : document) : document :=
  doc ++ [PageBreak].

(** Readers used to state properties of a finished document. *)
Definition first_heading (doc : document) : option string :=
  head (omap (fun b => match b with Heading t _ _ => Some t | _ => None end) doc).

Definition tables (doc : document) : list (list (list string)) :=
  omap (fun b => match b with Tbl tb => Some (rows tb) | _ => None end) doc.

Definition paragraphs (doc : document) : list string :=
  omap (fun b => match b with Paragraph t => Some t | _ => None end) doc.

End Docx.

(** ** The outside world *)

Record get_request : Type := GetRequest {
  get_url : string;
  get_headers : list (string * string);
  get_params : list (string * string);
  get_timeout : Z
}.

Record post_request : Type := PostRequest {
  post_url : string;
  post_json : pyval;
  post_headers : list (string * string)
}.

(** An HTTP response: [json] is what [response.json()] does, a parsed
    value or the exception the parser raises. *)
Record response : Type := Response {
  status_code : Z;
  response_text : string;
  json : result pyval
}.

(** Everything the script does to the outside, in the order it happens.
    An HTTP event records the request and what came back; a save event
    records the file name, the document handed to [doc.save] and the
    error, if any. *)
Inductive event : Type :=
| EvPrint (line : string)
| EvGet (req : get_request) (answer : exn + response)
| EvPost (req : post_request) (answer : exn + response)
| EvSave (filename : string) (doc : Docx.document) (err : option exn).

(** What the script reads from outside: the three module-level settings,
    the answers of the two servers, whether a path can be written, the
    interpreter's [str()] of values that are not strings, and what a
    save that failed leaves at its path, given what was there (nothing,
    the old content, or anything else: the write is not atomic). *)
Record environment : Type := Environment {
  JIRA_TOKEN : option string;
  JIRA_URL : option string;
  JQL : option string;
  server_get : get_request -> exn + response;
  server_post : post_request -> exn + response;
  save_error : string -> option exn;
  py_repr : pyval -> string;
  failed_save_leaves : string -> option Docx.document -> option Docx.document
}.

(** ** Computations with effects and exceptions *)

Record outcome (A : Type) : Type := Outcome {
  value : result A;
  disk : gmap string Docx.document;
  emitted : list event
}.

Arguments Outcome {A} value disk emitted.
Arguments value {A} o.
Arguments disk {A} o.
Arguments emitted {A} o.

Definition M (A : Type) : Type := gmap string Docx.document -> outcome A.

Definition ret {A : Type} (a : A) : M A :=
  fun fs => Outcome (Ok a) fs [].

Definition raise {A : Type} (e : exn) : M A :=
  fun fs => Outcome (Raise e) fs [].

Definition lift {A : Type} (r : result A) : M A :=
  fun fs => Outcome r fs [].

(** [after evs o]: the outcome [o] of a computation that ran after the
    events [evs] had been emitted. *)
Definition after {A : Type} (evs : list event) (o : outcome A) : outcome A :=
  match o with
  | Outcome v d evs' => Outcome v d (evs ++ evs')
  end.

Definition bind {A B : Type} (m : M A) (k : A -> M B) : M B :=
  fun fs =>
    match m fs with
    | Outcome (Ok a) d evs => after evs (k a d)
    | Outcome (Raise e) d evs => Outcome (Raise e) d evs
    end.

(** [try: body except Exception as e: handler e] *)
Definition try_except {A : Type} (body : M A) (handler : exn -> M A) : M A :=
  fun fs =>
    match body fs with
    | Outcome (Ok a) d evs => Outcome (Ok a) d evs
    | Outcome (Raise e) d evs => after evs (handler e d)
    end.

Notation "'let*' x ':=' m 'in' k" := (bind m (fun x => k))
  (at level 10, x name, m at level 100, k at level 200,
   format "'[v' 'let*'  x  ':='  m  'in' '/' k ']'") : py_scope.
Notation "m ';;' k" := (bind m (fun _ => k))
  (at level 100, k at level 200, right associativity,
   format "'[v' m ';;' '/' k ']'") : py_scope.

Local Open Scope py_scope.

Definition print (line : string) : M unit :=
  fun fs => Outcome (Ok tt) fs [EvPrint line].

(** [str(v)], as an f-string field formats [v]. *)
Definition py_str (repr : pyval -> string) (v : pyval) : string :=
  match v with
  | PStr s => s
  | PNone => "None"
  | PBool true => "True"
  | PBool false => "False"
  | PInt n => int_str n
  | _ => repr v
  end.

(** [[f(x) for x in l]] where [f] may raise *)
Fixpoint rmap {A B : Type} (f : A -> result B) (l : list A) : result (list B) :=
  match l with
  | [] => Ok []
  | x :: l' =>
      let? y := f x in
      let? ys := rmap f l' in
      Ok (y :: ys)
  end.

(** ** The script *)

Definition OLLAMA_URL : string := "http://localhost:11434/api/generate".

Definition SEARCH_URL : string := "https://tracker.nci.nih.gov/rest/api/2/search".

Definition not_opt (o : option string) : bool :=
  match o with
  | Some s => String.eqb s ""
  | None => true
  end.

Section Script.

Variable env : environment.

(** [requests.get(url, headers=..., params=..., timeout=...)] *)
Definition requests_get (req : get_request) : M response :=
  fun fs =>
    let a := server_get env req in
    Outcome (match a with inl e => Raise e | inr r => Ok r end) fs [EvGet req a].

(** [requests.post(url, json=..., headers=...)] *)
Definition requests_post (req : post_request) : M response :=
  fun fs =>
    let a := server_post env req in
    Outcome (match a with inl e => Raise e | inr r => Ok r end) fs [EvPost req a].

(** [doc.save(filename)]: on success the file holds the document,
    whatever was there before; after a failure the state of that file is
    whatever the environment leaves there. *)
Definition doc_save (doc : Docx.document) (filename : string) : M unit :=
  fun fs =>
    match save_error env filename with
    | Some e =>
        Outcome (Raise e)
                (partial_alter (failed_save_leaves env filename) filename fs)
                [EvSave filename doc (Some e)]
    | None => Outcome (Ok tt) (<[filename := doc]> fs) [EvSave filename doc None]
    end.

Definition fmt (v : pyval) : string := py_str (py_repr env) v.

(** [JiraToDocxAutomation.validate_config] *)
Definition validate_config : result unit :=
  if not_opt (JIRA_TOKEN env)
     || bool_decide (JIRA_TOKEN env = Some "your_token_here")
  then Raise (Exn ValueError "JIRA_TOKEN must be set in .env file")
  else if not_opt (JIRA_URL env)
          || str_contains "yourdomain" (fmt_opt (JIRA_URL env))
  then Raise (Exn ValueError
                "JIRA_URL must be set to your actual JIRA instance in .env file")
  else if not_opt (JQL env)
  then Raise (Exn ValueError "JIRA_JQL must be set in .env file")
  else Ok tt.

(** The [try] block of [fetch_issues] *)
Definition fetch_issues_try (project_name : string) : M pyval :=
  (let headers :=
     [("Authorization", "Bearer " +:+ fmt_opt (JIRA_TOKEN env));
      ("Accept", "application/json")] in
   let* jql := lift (str_add_opt ("project = '" +:+ project_name +:+ "' ")
                                 (JQL env)) in
   let params :=
     [("jql", jql);
      ("fields",
       "issuetype,key,summary,status,project,priority,assignee,reporter,description")] in
   print ("Fetching issues from JIRA with JQL: " +:+ fmt_opt (JQL env));;
   let* response := requests_get (GetRequest SEARCH_URL headers params 30) in
   if negb (status_code response =? 200) then
     raise (Exn Exception_
                ("JIRA API error: " +:+ int_str (status_code response)
                 +:+ " - " +:+ response_text response))
   else
     let* data := lift (json response) in
     let* issues := lift (py_get data "issues" (PList [])) in
     let* n := lift (py_len issues) in
     print ("Successfully fetched " +:+ int_str n +:+ " issues from JIRA");;
     ret issues).

(** [JiraToDocxAutomation.fetch_issues]: the block above under its two
    [except] clauses, tried in order. *)
Definition fetch_issues (project_name : string) : M pyval :=
  try_except (fetch_issues_try project_name)
    (fun e =>
       if is_RequestException e then
         print ("Error fetching issues from JIRA: " +:+ exn_msg e);;
         ret (PList [])
       else
         print ("Unexpected error: " +:+ exn_msg e);;
         ret (PList [])).

Definition prompt (text : string) : string :=
  "You are a project manager assistant. Given a list of JIRA issues or tasks with the fields: "
  +:+ "Issue Type, Issue Key, Summary, and Status, create a concise and professional high level summary of planned "
  +:+ "or ongoing activities for the current or upcoming month. Do not list individual issues. Give a brief overview."
  +:+ "Here is the list of issues: " +:+ text.

(** The [try] block of [summarize_with_ollama] *)
Definition summarize_try (text : string) : M string :=
  (let body :=
     PDict [("model", PStr "llama3");
            ("prompt", PStr (prompt text));
            ("stream", PBool false)] in
   let headers := [("Content-Type", "application/json")] in
   print "Generating summary with Ollama...";;
   let* response := requests_post (PostRequest OLLAMA_URL body headers) in
   if negb (status_code response =? 200) then
     print ("Ollama API error: " +:+ int_str (status_code response)
            +:+ " - " +:+ response_text response);;
     ret ("Error generating summary: " +:+ response_text response)
   else
     let* result := lift (json response) in
     let* summary := lift (py_get result "response" (PDict [])) in
     lift (py_strip summary)).

(** [JiraToDocxAutomation.summarize_with_ollama] *)
Definition summarize_with_ollama (text : string) : M string :=
  try_except (summarize_try text)
    (fun e =>
       if is_RequestException e then
         print ("Error connecting to Ollama: " +:+ exn_msg e);;
         ret ("Error connecting to Ollama: " +:+ exn_msg e)
       else
         print ("Unexpected error during summarization: " +:+ exn_msg e);;
         ret ("Error generating summary: " +:+ exn_msg e)).

(** One turn of the loop over [issues] in [generate_word_document]. *)
Definition add_issue_row (doc : Docx.document) (t : nat) (issue : pyval)
  : result Docx.document :=
  let (doc, r) := Docx.add_row doc t in
  let? v := py_get issue "issue type" (PStr "N/A") in
  let? doc := Docx.set_cell_text doc t r 0 v in
  let? v := py_get issue "issue key" (PStr "No summary") in
  let? doc := Docx.set_cell_text doc t r 1 v in
  let? v := py_get issue "summary" (PStr "No summary") in
  let? doc := Docx.set_cell_text doc t r 2 v in
  let? v := py_get issue "status" (PStr "No status") in
  Docx.set_cell_text doc t r 3 v.

Fixpoint add_issue_rows (doc : Docx.document) (t : nat) (issues : list pyval)
  : result Docx.document :=
  match issues with
  | [] => Ok doc
  | issue :: issues' =>
      let? doc := add_issue_row doc t issue in
      add_issue_rows doc t issues'
  end.

(** The document [generate_word_document] builds before saving it. *)
Definition build_document (issues : list pyval) (ai_summary project_name : string)
  : result Docx.document :=
  let doc := Docx.Document in
  let? h :=
    Docx.add_heading doc
      (project_name +:+ ": Tasks completed or to be continued in the upcoming month.") 1 in
  let doc := fst h in
  let title := snd h in
  let doc := Docx.set_alignment doc title 1 in
  let project_summary := ai_summary in
  let (doc, issues_table) := Docx.add_table doc 1 4 in
  let doc := Docx.set_style doc issues_table "Table Grid" in
  let? doc := Docx.set_cell_text doc issues_table 0 0 (PStr "Issue Type") in
  let? doc := Docx.set_cell_text doc issues_table 0 1 (PStr "Issue key") in
  let? doc := Docx.set_cell_text doc issues_table 0 2 (PStr "Summary") in
  let? doc := Docx.set_cell_text doc issues_table 0 3 (PStr "Status") in
  let? doc := add_issue_rows doc issues_table issues in
  let? h := Docx.add_heading doc "Project Summary" 2 in
  let doc := fst h in
  let? doc := Docx.add_paragraph doc project_summary in
  let doc := Docx.add_page_break doc in
  Ok doc.

(** [JiraToDocxAutomation.generate_word_document] *)
Definition generate_word_document
  (issues : list pyval) (ai_summary project_name filename : string) : M unit :=
  try_except
    (print ("Generating Word document: " +:+ filename);;
     let* doc := lift (build_document issues ai_summary project_name) in
     doc_save doc filename;;
     print ("Document saved successfully as " +:+ filename))
    (fun e => print ("Error generating Word document: " +:+ exn_msg e)).

Definition DEFAULT_FILENAME : string := "JIRA_Summary_Report.docx".

(** The dictionary literal [issue_data] of [run], with its four keys. *)
Definition issue_data (issue_type key summary status : pyval) : pyval :=
  PDict [("issue type", issue_type);
         ("issue key", key);
         ("summary", summary);
         ("status", status)].

(** The dictionary [issue_data] that [run] builds for one issue. *)
Definition extract_issue_data (issue : pyval) : result pyval :=
  let? fields := py_get issue "fields" (PDict []) in
  let? issuetype := py_get fields "issuetype" (PStr "Unknown") in
  let? issuetype_name := py_get issuetype "name" (PStr "Unknown") in
  let? key := py_get issue "key" (PStr "No key") in
  let? summary := py_get fields "summary" (PStr "No summary") in
  let? status := py_get fields "status" (PDict []) in
  let? status_name := py_get status "name" (PStr "Unknown") in
  Ok (issue_data issuetype_name key summary status_name).

(** The loop [for i, issue in enumerate(issues, 1)] of [run]; [rest] is
    what is left to iterate over. *)
Fixpoint process_issues (issues : pyval) (i : Z) (rest : list pyval)
  (issue_summaries : list pyval) : M (list pyval) :=
  match rest with
  | [] => ret issue_summaries
  | issue :: rest' =>
      let* n := lift (py_len issues) in
      let* key := lift (py_get issue "key" (PStr "Unknown")) in
      print (nl +:+ "Processing issue " +:+ int_str i +:+ "/" +:+ int_str n
             +:+ ": " +:+ fmt key);;
      let* issue_data := lift (extract_issue_data issue) in
      process_issues issues (i + 1) rest' (issue_summaries ++ [issue_data])
  end.

(** One element of the list comprehension that builds [issues_string]. *)
Definition issue_line (issue : pyval) : result string :=
  let? key := py_getitem issue "issue key" in
  let? summary := py_getitem issue "summary" in
  let? status := py_getitem issue "status" in
  Ok ("Issue Key: " +:+ fmt key +:+ ", Summary: " +:+ fmt summary
      +:+ ", Status: " +:+ fmt status).

Definition issues_string_of (issue_summaries : list pyval) : result string :=
  let? lines := rmap issue_line issue_summaries in
  Ok (str_join nl lines).

Definition banner : string := nl +:+ str_repeat "=" 50.

(** [JiraToDocxAutomation.run]; [project_name] is [self.project_name]. *)
Definition run (project_name : string) : M unit :=
  print "Starting JIRA to DOCX automation...";;
  print (str_repeat "=" 50);;
  let* issues := fetch_issues project_name in
  if negb (py_truthy issues) then
    print "No issues found or error fetching issues. Exiting.";;
    ret tt
  else
    let* elements := lift (py_iter issues) in
    let* issue_summaries := process_issues issues 1 elements [] in
    print banner;;
    print banner;;
    let* issues_string := lift (issues_string_of issue_summaries) in
    print issues_string;;
    let* ai_summary := summarize_with_ollama issues_string in
    print (nl +:+ "AI Summary:" +:+ nl +:+ ai_summary);;
    generate_word_document issue_summaries ai_summary project_name DEFAULT_FILENAME;;
    print banner;;
    print "Automation completed successfully!";;
    print ("Generated report for " +:+ int_str (Z.of_nat (length issue_summaries))
           +:+ " issues and project summaries.").

End Script.

(** ** Observations on values and event traces, used in the statements *)

(** The field [k] of a parsed JSON body, when the body is an object that
    has it. *)
Definition body_field (body : pyval) (k : string) : option pyval :=
  match body with
  | PDict d => dict_lookup k d
  | _ => None
  end.

Fixpoint all_space (s : string) : bool :=
  match s with
  | EmptyString => true
  | String c s' => py_isspace c && all_space s'
  end.

Definition starts_with_space (s : string) : bool :=
  match s with
  | EmptyString => false
  | String c _ => py_isspace c
  end.

Fixpoint ends_with_space (s : string) : bool :=
  match s with
  | EmptyString => false
  | String c EmptyString => py_isspace c
  | String _ s' => ends_with_space s'
  end.

(** What [fetch_issues] returns, as a function of the answer to its GET. *)
Definition fetched (answer : exn + response) : pyval :=
  match answer with
  | inl _ => PList []
  | inr r =>
      if status_code r =? 200 then
        match (let? data := json r in
               let? issues := py_get data "issues" (PList []) in
               let? _ := py_len issues in
               Ok issues)%py with
        | Ok issues => issues
        | Raise _ => PList []
        end
      else PList []
  end.

(** The same, from the list of answers to the GETs of a call: there is
    one, or none when the call failed before the request. *)
Definition fetched_from (answers : list (exn + response)) : pyval :=
  match answers with
  | [a] => fetched a
  | _ => PList []
  end.

(** What [summarize_with_ollama] returns, as a function of the answer to
    its POST. *)
Definition summarized (answer : exn + response) : string :=
  match answer with
  | inl e =>
      if is_RequestException e then "Error connecting to Ollama: " +:+ exn_msg e
      else "Error generating summary: " +:+ exn_msg e
  | inr r =>
      if status_code r =? 200 then
        match (let? result := json r in
               let? summary := py_get result "response" (PDict []) in
               py_strip summary)%py with
        | Ok s => s
        | Raise e =>
            if is_RequestException e
            then "Error connecting to Ollama: " +:+ exn_msg e
            else "Error generating summary: " +:+ exn_msg e
        end
      else "Error generating summary: " +:+ response_text r
  end.

(** The answers received, and the documents handed to [doc.save], in a
    trace. *)
Definition gets (evs : list event) : list (exn + response) :=
  omap (fun e => match e with EvGet _ a => Some a | _ => None end) evs.

Definition posts (evs : list event) : list (exn + response) :=
  omap (fun e => match e with EvPost _ a => Some a | _ => None end) evs.

Definition saves (evs : list event) : list (string * Docx.document * option exn) :=
  omap (fun e => match e with EvSave f d err => Some (f, d, err) | _ => None end) evs.

(** The value found in a raw issue along a path of keys, when every step
    is an object that has the key. *)
Fixpoint source_field (v : pyval) (path : list string) : option pyval :=
  match path with
  | [] => Some v
  | k :: path' =>
      match body_field v k with
      | Some x => source_field x path'
      | None => None
      end
  end.

(** The property of the normalisation step under test, for one raw issue:
    four string fields, each the stated placeholder when its source is
    absent. *)
Definition normalization_claim (issue : pyval) : Prop :=
  exists t k s st : string,
    extract_issue_data issue = Ok (issue_data (PStr t) (PStr k) (PStr s) (PStr st))
    /\ (source_field issue ["fields"; "issuetype"; "name"] = None -> t = "Unknown")
    /\ (source_field issue ["key"] = None -> k = "No key")
    /\ (source_field issue ["fields"; "summary"] = None -> s = "No summary")
    /\ (source_field issue ["fields"; "status"; "name"] = None -> st = "No status").

(** A normalised issue whose four fields are strings, and the dictionary
    [run] holds for it. *)
Record NormalizedIssue : Type := Normalized {
  ni_type : string;
  ni_key : string;
  ni_summary : string;
  ni_status : string
}.

Definition to_dict (n : NormalizedIssue) : pyval :=
  issue_data (PStr (ni_type n)) (PStr (ni_key n))
             (PStr (ni_summary n)) (PStr (ni_status n)).


Definition HEADER : list string := ["Issue Type"; "Issue key"; "Summary"; "Status"].

Definition TITLE (project_name : string) : string :=
  project_name +:+ ": Tasks completed or to be continued in the upcoming month.".

(** The row [generate_word_document] writes for one element of [issues]:
    the four lookups and assignments in the order of the loop body. *)
Definition row_of_issue (issue : pyval) : result (list string) :=
  (let? v := py_get issue "issue type" (PStr "N/A") in
   let? a := Docx.run_text v in
   let? v := py_get issue "issue key" (PStr "No summary") in
   let? b := Docx.run_text v in
   let? v := py_get issue "summary" (PStr "No summary") in
   let? c := Docx.run_text v in
   let? v := py_get issue "status" (PStr "No status") in
   let? d := Docx.run_text v in
   Ok [a; b; c; d])%py.

(** The part of a document the report is judged by: its tables and its
    paragraphs. *)
Definition doc_content (doc : Docx.document)
  : list (list (list string)) * list string :=
  (Docx.tables doc, Docx.paragraphs doc).

Definition saved_content (evs : list event)
  : list (list (list (list string)) * list string) :=
  map (fun s => doc_content (snd (fst s))) (saves evs).

Definition post_requests (evs : list event) : list post_request :=
  omap (fun e => match e with EvPost r _ => Some r | _ => None end) evs.

(** The request [summarize_with_ollama] posts for a text. *)
Definition summarize_request (text : string) : post_request :=
  PostRequest OLLAMA_URL
              (PDict [("model", PStr "llama3");
                      ("prompt", PStr (prompt text));
                      ("stream", PBool false)])
              [("Content-Type", "application/json")].

(** The line of [issues_string] for a normalised issue. *)
Definition line_of (n : NormalizedIssue) : string :=
  "Issue Key: " +:+ ni_key n +:+ ", Summary: " +:+ ni_summary n
  +:+ ", Status: " +:+ ni_status n.

(** What [run] computes between the fetch and the call of the
    summarizer: the normalised issues and the text made from them. *)
Definition prepared env (v : pyval) : result (list pyval * string) :=
  rbind (py_iter v) (fun elements =>
  rbind (rmap extract_issue_data elements) (fun sums =>
  rbind (issues_string_of env sums) (fun text => Ok (sums, text)))).


(** ** Sample inputs

    The issue, the tracker answer and the model answer of the end-to-end
    scenario, and environments built from canned answers. *)

Definition sample_issue : pyval :=
  PDict [("key", PStr "PROJ-1");
         ("fields", PDict [("issuetype", PDict [("name", PStr "Bug")]);
                           ("summary", PStr "Fix crash");
                           ("status", PDict [("name", PStr "Open")])])].

Definition issue_without_issuetype : pyval :=
  PDict [("key", PStr "PROJ-2");
         ("fields", PDict [("summary", PStr "Fix crash");
                           ("status", PDict [("name", PStr "Open")])])].

Definition issue_without_status_name : pyval :=
  PDict [("key", PStr "PROJ-3");
         ("fields", PDict [("issuetype", PDict [("name", PStr "Bug")]);
                           ("summary", PStr "Fix crash");
                           ("status", PDict [])])].

Definition issue_with_null_summary : pyval :=
  PDict [("key", PStr "PROJ-4");
         ("fields", PDict [("issuetype", PDict [("name", PStr "Bug")]);
                           ("summary", PNone);
                           ("status", PDict [("name", PStr "Open")])])].

Definition issue_bare : pyval :=
  PDict [("fields", PDict [("issuetype", PDict [])])].

Definition second_issue : pyval :=
  PDict [("key", PStr "PROJ-7");
         ("fields", PDict [("issuetype", PDict [("name", PStr "Story")]);
                           ("summary", PStr "Add export");
                           ("status", PDict [("name", PStr "Done")])])].

Definition tracker_two : exn + response :=
  inr (Response 200 ""
         (Ok (PDict [("issues", PList [sample_issue; second_issue])]))).

Definition tracker_ok : exn + response :=
  inr (Response 200 "" (Ok (PDict [("issues", PList [sample_issue])]))).


Definition tracker_down : exn + response :=
  inl (Exn RequestException "Connection refused").

Definition llm_ok : exn + response :=
  inr (Response 200 "" (Ok (PDict [("response", PStr " All systems stable. ")]))).

Definition llm_text : exn + response :=
  inr (Response 200 "" (Ok (PDict [("response", PStr " text ")]))).


Definition llm_no_response : exn + response :=
  inr (Response 200 "" (Ok (PDict [("done", PBool true)]))).



Definition sample_env (tracker llm : exn + response) : environment :=
  Environment (Some "token") (Some "https://tracker.example.org")
              (Some "AND status = Open")
              (fun _ => tracker) (fun _ => llm) (fun _ => None)
              (fun v => "<" +:+ type_name v +:+ ">") (fun _ old => old).

(** ** The constructor and the entry point *)

(** An instance of [JiraToDocxAutomation]: its one attribute. *)
Record automation : Type := Automation { self_project_name : string }.

(** [JiraToDocxAutomation.__init__] *)
Definition JiraToDocxAutomation (env : environment) (project_name : string)
  : result automation :=
  (let? _ := validate_config env in
   Ok (Automation project_name))%py.

(** [main] *)
Definition main (env : environment) : M unit :=
  try_except
    (let* automation := lift (JiraToDocxAutomation env "Index of NCI Studies") in
     run env (self_project_name automation))
    (fun e =>
       print ("Error: " +:+ exn_msg e);;
       print (nl +:+ "Please ensure:");;
       print "1. Your .env file is properly configured";;
       print "2. Ollama is running locally with llama3 model";;
       print "3. Your JIRA credentials are correct").

(** The lines [main] prints when it catches [e]. *)
Definition main_error_lines (e : exn) : list event :=
  [EvPrint ("Error: " +:+ exn_msg e);
   EvPrint (nl +:+ "Please ensure:");
   EvPrint "1. Your .env file is properly configured";
   EvPrint "2. Ollama is running locally with llama3 model";
   EvPrint "3. Your JIRA credentials are correct"].

(** ** Further observations *)

Definition get_requests (evs : list event) : list get_request :=
  omap (fun e => match e with EvGet r _ => Some r | _ => None end) evs.

(** The request [fetch_issues] sends for a project, a token setting and a
    filter. *)
Definition search_request (token : option string) (project_name jql : string)
  : get_request :=
  GetRequest SEARCH_URL
             [("Authorization", "Bearer " +:+ fmt_opt token);
              ("Accept", "application/json")]
             [("jql", ("project = '" +:+ project_name +:+ "' ") +:+ jql);
              ("fields",
               "issuetype,key,summary,status,project,priority,assignee,reporter,description")]
             30.

(** The text read back from a run whose text was set to a string the XML
    library accepts: every carriage return has become a line feed. *)
Fixpoint cr_to_lf (s : string) : string :=
  match s with
  | EmptyString => EmptyString
  | String c s' =>
      String (if Ascii.eqb c "013"%char then "010"%char else c) (cr_to_lf s')
  end.




(** Lines joined by newlines, said directly: the first line, then for
    each further line a line feed and the line. *)
Definition joined_by_newlines (lines : list string) : string :=
  match lines with
  | [] => EmptyString
  | first :: others =>
      fold_left (fun text line => text +:+ String "010"%char line) others first
  end.

Definition is_print (e : event) : bool :=
  match e with EvPrint _ => true | _ => false end.

(** The events of a trace other than the printed lines, in order. *)
Definition effects (evs : list event) : list event :=
  filter (fun e => is_print e = false) evs.

Definition FF : string := String (ascii_of_nat 12) "".



(** The text of the cell that [d.get(k, dflt)] fills, when it is a string. *)
Definition get_str (d : list (string * pyval)) (k dflt : string) : option string :=
  match dict_lookup k d with
  | None => Some dflt
  | Some (PStr s) => Some s
  | Some _ => None
  end.

(** [row] is the table row for the element [issue] of the list given to
    [generate_word_document]: a dictionary whose four entries, where
    present, are strings that the document library accepts. *)
Definition row_for (issue : pyval) (row : list string) : Prop :=
  exists d a b c e,
    issue = PDict d
    /\ get_str d "issue type" "N/A" = Some a
    /\ get_str d "issue key" "No summary" = Some b
    /\ get_str d "summary" "No summary" = Some c
    /\ get_str d "status" "No status" = Some e
    /\ Docx.xml_compatible a = true /\ Docx.xml_compatible b = true
    /\ Docx.xml_compatible c = true /\ Docx.xml_compatible e = true
    /\ row = [cr_to_lf a; cr_to_lf b; cr_to_lf c; cr_to_lf e].

Definition env_without_jql : environment :=
  Environment (Some "token") (Some "https://tracker.example.org") None
              (fun _ => tracker_ok) (fun _ => llm_ok) (fun _ => None)
              (fun _ => "?") (fun _ old => old).

Definition tracker_null_issues : exn + response :=
  inr (Response 200 "" (Ok (PDict [("issues", PNone)]))).

Definition tracker_bad_issue : exn + response :=
  inr (Response 200 ""
         (Ok (PDict [("issues", PList [sample_issue; issue_without_issuetype])]))).

Definition llm_null_response : exn + response :=
  inr (Response 200 "" (Ok (PDict [("response", PNone)]))).

Definition llm_blank : exn + response :=
  inr (Response 200 "" (Ok (PDict [("response", PStr "  ")]))).

Definition env_placeholder : environment :=
  Environment (Some "your_token_here") (Some "https://tracker.example.org")
              (Some "AND status = Open")
              (fun _ => tracker_ok) (fun _ => llm_ok) (fun _ => None)
              (fun _ => "?") (fun _ old => old).

(** * Properties *)

(** ** Computing with [bind] and [try_except] *)

Lemma bind_ok {A B : Type} (m : M A) (k : A -> M B) fs a fs' evs :
  m fs = Outcome (Ok a) fs' evs ->
  bind m k fs = after evs (k a fs').
Proof. intros H. unfold bind. rewrite H. reflexivity. Qed.

Lemma bind_raise {A B : Type} (m : M A) (k : A -> M B) fs e fs' evs :
  m fs = Outcome (Raise e) fs' evs ->
  bind m k fs = Outcome (Raise e) fs' evs.
Proof. intros H. unfold bind. rewrite H. reflexivity. Qed.

(** ** [strip] *)

Lemma lstrip_spec s :
  exists l, s = l +:+ lstrip s /\ all_space l = true
            /\ starts_with_space (lstrip s) = false.
Proof.
  induction s as [|c s IH]; simpl.
  - exists EmptyString. auto.
  - destruct (py_isspace c) eqn:Hc.
    + destruct IH as (l & Hs & Hl & Hn). exists (String c l). simpl.
      rewrite Hc, Hl. split; [rewrite Hs at 1; reflexivity | auto].
    + exists EmptyString. simpl. auto.
Qed.

Lemma rstrip_spec s :
  exists r, s = rstrip s +:+ r /\ all_space r = true
            /\ ends_with_space (rstrip s) = false.
Proof.
  induction s as [|c s IH]; simpl.
  - exists EmptyString. auto.
  - destruct IH as (r & Hs & Hr & Hn).
    destruct (rstrip s) as [|c' s'] eqn:Hrs.
    + change (s = r) in Hs. subst r. destruct (py_isspace c) eqn:Hc.
      * exists (String c s). simpl. rewrite Hc, Hr. auto.
      * exists s. simpl. rewrite Hc. auto.
    + exists r. split; [rewrite Hs at 1; reflexivity | auto].
Qed.

Lemma rstrip_keeps_start s :
  starts_with_space s = false -> starts_with_space (rstrip s) = false.
Proof.
  destruct s as [|c s]; simpl; [auto|].
  intros Hc. destruct (rstrip s); [rewrite Hc|]; simpl; auto.
Qed.

Lemma append_assoc (a b c : string) : (a +:+ b) +:+ c = a +:+ b +:+ c.
Proof.
  induction a as [|x a IH]; [reflexivity|].
  change (String x ((a +:+ b) +:+ c) = String x (a +:+ b +:+ c)).
  now rewrite IH.
Qed.

(** [strip] removes a run of whitespace at each end and nothing else. *)
Lemma strip_spec s :
  exists l r, s = l +:+ strip s +:+ r
              /\ all_space l = true /\ all_space r = true
              /\ starts_with_space (strip s) = false
              /\ ends_with_space (strip s) = false.
Proof.
  destruct (lstrip_spec s) as (l & Hs & Hl & Hn).
  destruct (rstrip_spec (lstrip s)) as (r & Hs' & Hr & Hn').
  exists l, r. unfold strip. rewrite <- Hs'.
  repeat split; auto using rstrip_keeps_start.
Qed.

(** ** [fetch_issues] *)

(** Case analysis along the control flow of [fetch_issues]: the setting
    [JQL], the answer to the GET, the status code, the parser, the lookup
    of [issues] and its length. *)
Ltac fetch_cases env :=
  unfold fetch_issues, fetch_issues_try, try_except, bind, after, lift, raise,
    ret, print, requests_get, str_add_opt;
  destruct (JQL env) as [jql|]; simpl;
  [ match goal with
    | |- context [server_get env ?r] =>
        destruct (server_get env r) as [e|resp] eqn:Hanswer; simpl;
        [ destruct (is_RequestException e); simpl
        | destruct (status_code resp =? 200) eqn:Hstatus; simpl;
          [ destruct (json resp) as [body|e] eqn:Hjson; simpl;
            [ destruct (py_get body "issues" (PList [])) as [issues|e] eqn:Hget; simpl;
              [ destruct (py_len issues) as [n|e] eqn:Hlen; simpl;
                [ | destruct (is_RequestException e); simpl ]
              | destruct (is_RequestException e); simpl ]
            | destruct (is_RequestException e); simpl ]
          | ]
        ]
    end
  | ].

Ltac fetched_eval :=
  unfold fetched; simpl;
  repeat match goal with
         | H : _ = _ |- _ => rewrite H; simpl
         end.

(** The call leaves the disk alone, talks to the tracker at most once and
    to nobody else, and its value is determined by the tracker's answer. *)
Lemma fetch_issues_char env pn fs :
  let o := fetch_issues env pn fs in
  disk o = fs /\ posts (emitted o) = [] /\ saves (emitted o) = []
  /\ (length (gets (emitted o)) <= 1)%nat
  /\ value o = Ok (fetched_from (gets (emitted o))).
Proof.
  fetch_cases env; unfold fetched_from; fetched_eval; repeat split; auto.
Qed.

Lemma fetch_issues_answer env pn fs req a :
  In (EvGet req a) (emitted (fetch_issues env pn fs)) ->
  value (fetch_issues env pn fs) = Ok (fetched a).
Proof.
  fetch_cases env; intros Hin;
    repeat (destruct Hin as [Hin|Hin]; try discriminate Hin);
    try contradiction;
    injection Hin as <- <-; fetched_eval; reflexivity.
Qed.


(** C2: after a 200 answer whose JSON body has an [issues] array,
    [fetch_issues] returns that array, the same elements in the same
    order; when the body has no [issues] key it returns the empty list. *)
Theorem fetch_issues_returns_issues_array env pn fs req resp body :
  In (EvGet req (inr resp)) (emitted (fetch_issues env pn fs)) ->
  status_code resp = 200 ->
  json resp = Ok body ->
  (forall l, body_field body "issues" = Some (PList l) ->
             value (fetch_issues env pn fs) = Ok (PList l))
  /\ (body_field body "issues" = None ->
      value (fetch_issues env pn fs) = Ok (PList [])).
Proof.
  intros Hin Hstatus Hjson.
  rewrite (fetch_issues_answer _ _ _ _ _ Hin).
  unfold fetched. rewrite Hstatus, Hjson. simpl.
  split.
  - intros l Hl. destruct body; try discriminate Hl.
    simpl in *. rewrite Hl. reflexivity.
  - intros Hnone. destruct body; try reflexivity.
    simpl in *. rewrite Hnone. reflexivity.
Qed.

Lemma fetch_issues_returns_issues_array_witness :
  value (fetch_issues (sample_env tracker_ok llm_ok) "P" ∅)
  = Ok (PList [sample_issue]).
Proof.
  refine (proj1 (fetch_issues_returns_issues_array
                   (sample_env tracker_ok llm_ok) "P" ∅ _
                   (Response 200 "" (Ok (PDict [("issues", PList [sample_issue])])))
                   _ _ _ _) _ _).
  - simpl. right. left. reflexivity.
  - reflexivity.
  - reflexivity.
  - reflexivity.
Defined.



(** ** [summarize_with_ollama] *)

Ltac summarize_cases env :=
  unfold summarize_with_ollama, summarize_try, try_except, bind, after, lift,
    raise, ret, print, requests_post;
  simpl;
  match goal with
  | |- context [server_post env ?r] =>
      destruct (server_post env r) as [e|resp] eqn:Hanswer; simpl;
      [ destruct (is_RequestException e) eqn:Hreq; simpl
      | destruct (status_code resp =? 200) eqn:Hstatus; simpl;
        [ destruct (json resp) as [body|e] eqn:Hjson; simpl;
          [ destruct (py_get body "response" (PDict [])) as [summary|e] eqn:Hget; simpl;
            [ destruct (py_strip summary) as [s|e] eqn:Hstrip; simpl;
              [ | destruct (is_RequestException e) eqn:Hreq; simpl ]
            | destruct (is_RequestException e) eqn:Hreq; simpl ]
          | destruct (is_RequestException e) eqn:Hreq; simpl ]
        | ]
      ]
  end.

Ltac summarized_eval :=
  unfold summarized; simpl;
  repeat match goal with
         | H : _ = _ |- _ => rewrite H; simpl
         end.

(** The call leaves the disk alone, posts exactly once, talks to nobody
    else, never raises, and its value is determined by the answer. *)
Lemma summarize_char env text fs :
  let o := summarize_with_ollama env text fs in
  disk o = fs /\ gets (emitted o) = [] /\ saves (emitted o) = []
  /\ exists a, posts (emitted o) = [a] /\ value o = Ok (summarized a).
Proof.
  summarize_cases env; repeat split; auto; eexists; split;
    try reflexivity; summarized_eval; reflexivity.
Qed.

Lemma summarize_answer env text fs req a :
  In (EvPost req a) (emitted (summarize_with_ollama env text fs)) ->
  value (summarize_with_ollama env text fs) = Ok (summarized a).
Proof.
  summarize_cases env; intros Hin;
    repeat (destruct Hin as [Hin|Hin]; try discriminate Hin);
    try contradiction;
    injection Hin as <- <-; summarized_eval; reflexivity.
Qed.

(** C4: after a 200 answer whose JSON body has a string [response] field,
    [summarize_with_ollama] returns that string stripped: the field is
    the result with a run of whitespace before it and one after it, and
    the result neither starts nor ends with whitespace. *)
Theorem summarize_returns_stripped_response env text fs req resp body s :
  In (EvPost req (inr resp)) (emitted (summarize_with_ollama env text fs)) ->
  status_code resp = 200 ->
  json resp = Ok body ->
  body_field body "response" = Some (PStr s) ->
  value (summarize_with_ollama env text fs) = Ok (strip s)
  /\ exists l r, s = l +:+ strip s +:+ r
                 /\ all_space l = true /\ all_space r = true
                 /\ starts_with_space (strip s) = false
                 /\ ends_with_space (strip s) = false.
Proof.
  intros Hin Hstatus Hjson Hfield. split; [|apply strip_spec].
  rewrite (summarize_answer _ _ _ _ _ Hin).
  unfold summarized. rewrite Hstatus, Hjson. simpl.
  destruct body; try discriminate Hfield.
  simpl in *. rewrite Hfield. reflexivity.
Qed.

Lemma summarize_returns_stripped_response_witness :
  value (summarize_with_ollama (sample_env tracker_ok llm_text) "x" ∅) = Ok "text".
Proof.
  refine (proj1 (summarize_returns_stripped_response
                   (sample_env tracker_ok llm_text) "x" ∅ _
                   (Response 200 "" (Ok (PDict [("response", PStr " text ")])))
                   _ " text " _ _ _ _)).
  - simpl. right. left. reflexivity.
  - reflexivity.
  - reflexivity.
  - reflexivity.
Defined.



(** C10: after a 200 answer whose JSON body has no [response] field, the
    result starts with "Error generating summary:"; for a JSON object it
    is the message of the attribute error raised by [{}.strip()]. *)
Theorem summarize_missing_response_field env text fs req resp body :
  In (EvPost req (inr resp)) (emitted (summarize_with_ollama env text fs)) ->
  status_code resp = 200 ->
  json resp = Ok body ->
  body_field body "response" = None ->
  exists s,
    value (summarize_with_ollama env text fs) = Ok s
    /\ String.prefix "Error generating summary:" s = true
    /\ (forall d, body = PDict d ->
          py_strip (PDict []) = Raise (Exn AttributeError
                                          "'dict' object has no attribute 'strip'")
          /\ s = "Error generating summary: 'dict' object has no attribute 'strip'").
Proof.
  intros Hin Hstatus Hjson Hfield.
  rewrite (summarize_answer _ _ _ _ _ Hin).
  unfold summarized. rewrite Hstatus, Hjson. simpl.
  destruct body; simpl in *; try rewrite Hfield; simpl;
    (eexists; split; [reflexivity|]; split; [reflexivity|]);
    intros d' Hd; try discriminate Hd; split; reflexivity.
Qed.

Lemma summarize_missing_response_field_witness :
  exists s,
    value (summarize_with_ollama (sample_env tracker_ok llm_no_response) "x" ∅)
    = Ok s
    /\ String.prefix "Error generating summary:" s = true
    /\ (forall d, PDict [("done", PBool true)] = PDict d ->
          py_strip (PDict []) = Raise (Exn AttributeError
                                          "'dict' object has no attribute 'strip'")
          /\ s = "Error generating summary: 'dict' object has no attribute 'strip'").
Proof.
  refine (summarize_missing_response_field
            (sample_env tracker_ok llm_no_response) "x" ∅ _
            (Response 200 "" (Ok (PDict [("done", PBool true)]))) _ _ _ _ _).
  - simpl. right. left. reflexivity.
  - reflexivity.
  - reflexivity.
  - reflexivity.
Defined.

(** ** The normalisation step of [run] *)

Lemma extract_issue_data_without_issuetype :
  extract_issue_data issue_without_issuetype
  = Raise (Exn AttributeError "'str' object has no attribute 'get'").
Proof. reflexivity. Qed.

Lemma extract_issue_data_without_status_name :
  extract_issue_data issue_without_status_name
  = Ok (issue_data (PStr "Bug") (PStr "PROJ-3") (PStr "Fix crash") (PStr "Unknown")).
Proof. reflexivity. Qed.

Lemma extract_issue_data_with_null_summary :
  extract_issue_data issue_with_null_summary
  = Ok (issue_data (PStr "Bug") (PStr "PROJ-4") PNone (PStr "Open")).
Proof. reflexivity. Qed.

(** C1, as stated, fails: an issue whose status has no name gets the
    status "Unknown", not "No status"; a null summary in the source is a
    null summary in the output; and an issue without [issuetype] gets no
    record at all. *)
Lemma normalization_claim_fails :
  ~ normalization_claim issue_without_status_name
  /\ ~ normalization_claim issue_with_null_summary
  /\ ~ normalization_claim issue_without_issuetype.
Proof.
  split; [|split]; intros (t & k & s & st & Hout & Ht & Hk & Hs & Hst).
  - rewrite extract_issue_data_without_status_name in Hout.
    unfold issue_data in Hout. inversion Hout; subst.
    specialize (Hst eq_refl). discriminate Hst.
  - rewrite extract_issue_data_with_null_summary in Hout.
    discriminate Hout.
  - rewrite extract_issue_data_without_issuetype in Hout.
    discriminate Hout.
Qed.

(** C1, amended: for an issue whose [fields] block has an [issuetype]
    object and whose [status] entry is an object or absent, the step
    yields the dictionary with exactly the four keys; each value is the
    source value when the source has it, and otherwise "Unknown" for the
    type name, "No key", "No summary" and "Unknown" for the status name. *)
Theorem extract_issue_data_defaults issue issuetype :
  source_field issue ["fields"; "issuetype"] = Some (PDict issuetype) ->
  (source_field issue ["fields"; "status"] = None
   \/ exists status, source_field issue ["fields"; "status"] = Some (PDict status)) ->
  extract_issue_data issue
  = Ok (issue_data
          (default (PStr "Unknown") (source_field issue ["fields"; "issuetype"; "name"]))
          (default (PStr "No key") (source_field issue ["key"]))
          (default (PStr "No summary") (source_field issue ["fields"; "summary"]))
          (default (PStr "Unknown") (source_field issue ["fields"; "status"; "name"]))).
Proof.
  intros Hit Hst. unfold extract_issue_data.
  destruct issue as [| | | | |l|d]; try discriminate Hit.
  simpl in *.
  destruct (dict_lookup "fields" d) as [fields|]; [|discriminate Hit].
  destruct fields as [| | | | |l|f]; try discriminate Hit.
  simpl in *.
  destruct (dict_lookup "issuetype" f) as [it|]; [|discriminate Hit].
  injection Hit as ->. simpl.
  destruct (dict_lookup "name" issuetype); simpl;
    destruct (dict_lookup "key" d); simpl;
    destruct (dict_lookup "summary" f); simpl;
    (destruct (dict_lookup "status" f) as [st|]; simpl;
     [ destruct Hst as [Hst | [status Hst]]; [discriminate Hst|];
       injection Hst as ->; simpl;
       destruct (dict_lookup "name" status); reflexivity
     | reflexivity ]).
Qed.

Lemma extract_issue_data_defaults_witness :
  extract_issue_data issue_bare
  = Ok (issue_data (PStr "Unknown") (PStr "No key")
                   (PStr "No summary") (PStr "Unknown")).
Proof.
  refine (extract_issue_data_defaults issue_bare [] _ _).
  - reflexivity.
  - left. reflexivity.
Defined.

(** ** The document library *)

Lemma append_nil_r (s : string) : s +:+ EmptyString = s.
Proof.
  induction s as [|c s IH]; [reflexivity|].
  change (String c (s +:+ EmptyString) = String c s). now rewrite IH.
Qed.

Lemma xml_compatible_app a b :
  Docx.xml_compatible (a +:+ b) = Docx.xml_compatible a && Docx.xml_compatible b.
Proof.
  induction a as [|c a IH]; [reflexivity|].
  change (Docx.xml_compatible_char c && Docx.xml_compatible (a +:+ b)
          = Docx.xml_compatible_char c && Docx.xml_compatible a
            && Docx.xml_compatible b).
  rewrite IH. apply andb_assoc.
Qed.

Lemma cr_to_lf_app a b : cr_to_lf (a +:+ b) = cr_to_lf a +:+ cr_to_lf b.
Proof.
  induction a as [|c a IH]; [reflexivity|].
  change (String (if Ascii.eqb c "013" then "010"%char else c) (cr_to_lf (a +:+ b))
          = String (if Ascii.eqb c "013" then "010"%char else c)
                   (cr_to_lf a +:+ cr_to_lf b)).
  now rewrite IH.
Qed.


Lemma flush_spec bfr out :
  Docx.flush bfr out
  = if Docx.xml_compatible bfr then Ok (out +:+ bfr) else Raise Docx.xml_error.
Proof.
  unfold Docx.flush. destruct (String.eqb_spec bfr "") as [->|_]; [|reflexivity].
  simpl. now rewrite append_nil_r.
Qed.

(** [add_char] on one character of a string. *)
Lemma add_char_one c bfr out :
  Docx.add_char (PStr (String c EmptyString)) bfr out
  = if Ascii.eqb c "009" then
      rbind (Docx.flush bfr out) (fun o => Ok (EmptyString, o +:+ Docx.TAB))
    else if Ascii.eqb c "013" || Ascii.eqb c "010" then
      rbind (Docx.flush bfr out) (fun o => Ok (EmptyString, o +:+ Docx.LF))
    else Ok (bfr +:+ String c EmptyString, out).
Proof.
  destruct c as [[] [] [] [] [] [] [] []]; reflexivity.
Qed.

Lemma add_text_chars s : forall bfr out,
  Docx.add_text (chars s) bfr out
  = if Docx.xml_compatible (bfr +:+ s)
    then Ok (out +:+ bfr +:+ cr_to_lf s)
    else Raise Docx.xml_error.
Proof.
  induction s as [|c s IH]; intros bfr out.
  - cbn [chars Docx.add_text cr_to_lf]. rewrite flush_spec, !append_nil_r.
    reflexivity.
  - cbn [chars Docx.add_text]. rewrite add_char_one, flush_spec.
    rewrite xml_compatible_app.
    change (Docx.xml_compatible (String c s))
      with (Docx.xml_compatible_char c && Docx.xml_compatible s).
    cbn [cr_to_lf].
    destruct (Ascii.eqb c "009") eqn:Htab.
    { apply Ascii.eqb_eq in Htab. subst c.
      destruct (Docx.xml_compatible bfr); [|reflexivity].
      cbn [rbind fst snd]. rewrite IH.
      change (EmptyString +:+ s) with s.
      change (EmptyString +:+ cr_to_lf s) with (cr_to_lf s). simpl.
      destruct (Docx.xml_compatible s); [|reflexivity].
      f_equal. rewrite !append_assoc. reflexivity. }
    destruct (Ascii.eqb c "013") eqn:Hcr.
    { apply Ascii.eqb_eq in Hcr. subst c.
      destruct (Docx.xml_compatible bfr); [|reflexivity].
      cbn [rbind fst snd orb]. rewrite IH.
      change (EmptyString +:+ s) with s.
      change (EmptyString +:+ cr_to_lf s) with (cr_to_lf s). simpl.
      destruct (Docx.xml_compatible s); [|reflexivity].
      f_equal. rewrite !append_assoc. reflexivity. }
    destruct (Ascii.eqb c "010") eqn:Hlf.
    { apply Ascii.eqb_eq in Hlf. subst c.
      destruct (Docx.xml_compatible bfr); [|reflexivity].
      cbn [rbind fst snd orb]. rewrite IH.
      change (EmptyString +:+ s) with s.
      change (EmptyString +:+ cr_to_lf s) with (cr_to_lf s). simpl.
      destruct (Docx.xml_compatible s); [|reflexivity].
      f_equal. rewrite !append_assoc. reflexivity. }
    cbn [rbind fst snd orb]. rewrite IH.
    rewrite !(append_assoc bfr (String c EmptyString)).
    change (String c EmptyString +:+ s) with (String c s).
    change (String c EmptyString +:+ cr_to_lf s) with (String c (cr_to_lf s)).
    rewrite xml_compatible_app.
    change (Docx.xml_compatible (String c s))
      with (Docx.xml_compatible_char c && Docx.xml_compatible s).
    reflexivity.
Qed.

(** The text set from a string: the string with every carriage return
    turned into a line feed, or the error of the XML library when the
    string holds another control character. *)
Lemma run_text_str s :
  Docx.run_text (PStr s)
  = if Docx.xml_compatible s then Ok (cr_to_lf s) else Raise Docx.xml_error.
Proof.
  unfold Docx.run_text. cbn [py_iter rbind]. rewrite add_text_chars. reflexivity.
Qed.

(** ** [generate_word_document] *)

(** Writing into a cell of the last row of the table at position 1. *)
Lemma set_cell_text_last h st n rows row c v :
  Docx.set_cell_text [h; Docx.Tbl (Docx.Table st n (rows ++ [row]))]
                     1 (length rows) c v
  = if (c <? length row)%nat then
      rbind (Docx.run_text v) (fun s =>
        Ok [h; Docx.Tbl (Docx.Table st n (rows ++ [<[c := s]> row]))])
    else Raise (Exn IndexError "tuple index out of range").
Proof.
  unfold Docx.set_cell_text, Docx.table_at. simpl.
  rewrite list_lookup_middle by reflexivity.
  destruct (c <? length row)%nat; [|reflexivity].
  destruct (Docx.run_text v) as [s|e]; [|reflexivity]. simpl.
  rewrite insert_app_r_alt by lia. rewrite Nat.sub_diag. reflexivity.
Qed.

Lemma add_issue_row_spec h st rows issue :
  add_issue_row [h; Docx.Tbl (Docx.Table st 4 rows)] 1 issue
  = rbind (row_of_issue issue) (fun row =>
      Ok [h; Docx.Tbl (Docx.Table st 4 (rows ++ [row]))]).
Proof.
  unfold add_issue_row, row_of_issue, Docx.add_row, Docx.table_at. simpl.
  repeat (match goal with
          | |- context [py_get issue ?k ?d] =>
              destruct (py_get issue k d) as [?v|?e]; simpl; [|reflexivity]
          end;
          rewrite set_cell_text_last; simpl;
          match goal with
          | |- context [Docx.run_text ?v] =>
              destruct (Docx.run_text v) as [?s|?e]; simpl; [|reflexivity]
          end).
  reflexivity.
Qed.

Lemma add_issue_rows_spec h st issues : forall rows,
  add_issue_rows [h; Docx.Tbl (Docx.Table st 4 rows)] 1 issues
  = rbind (rmap row_of_issue issues) (fun new =>
      Ok [h; Docx.Tbl (Docx.Table st 4 (rows ++ new))]).
Proof.
  induction issues as [|issue issues IH]; intros rows; simpl.
  - rewrite app_nil_r. reflexivity.
  - rewrite add_issue_row_spec.
    destruct (row_of_issue issue) as [row|e]; simpl; [|reflexivity].
    rewrite IH. destruct (rmap row_of_issue issues) as [new|e]; simpl;
      [|reflexivity].
    rewrite <- app_assoc. reflexivity.
Qed.

(** The document is the title, the table of the header row and one row
    per issue, the summary heading, the summary and a page break, each
    text as the library reads it back; the first text the library
    refuses, in this order, stops the construction. *)
Lemma build_document_spec issues ai_summary project_name :
  build_document issues ai_summary project_name
  = rbind (Docx.run_text (PStr (TITLE project_name))) (fun title =>
    rbind (rmap row_of_issue issues) (fun rows =>
    rbind (Docx.run_text (PStr ai_summary)) (fun paragraph =>
      Ok [Docx.Heading title 1 (Some 1);
          Docx.Tbl (Docx.Table (Some "Table Grid") 4 (HEADER :: rows));
          Docx.Heading "Project Summary" 2 None;
          Docx.Paragraph paragraph;
          Docx.PageBreak]))).
Proof.
  unfold build_document, Docx.add_heading, Docx.add_paragraph.
  change (project_name
          +:+ ": Tasks completed or to be continued in the upcoming month.")
    with (TITLE project_name).
  simpl.
  destruct (Docx.run_text (PStr (TITLE project_name))) as [title|e];
    [|reflexivity].
  simpl.
  change (rbind (add_issue_rows
                   [Docx.Heading title 1 (Some 1);
                    Docx.Tbl (Docx.Table (Some "Table Grid") 4 ([] ++ [HEADER]))]
                   1 issues)
                (fun doc =>
                   rbind (rbind (Docx.run_text (PStr ai_summary))
                                (fun t => Ok ((doc ++ [Docx.Heading "Project Summary" 2 None])
                                              ++ [Docx.Paragraph t])))
                         (fun doc => Ok (Docx.add_page_break doc)))
          = rbind (rmap row_of_issue issues) (fun rows =>
            rbind (Docx.run_text (PStr ai_summary)) (fun paragraph =>
              Ok [Docx.Heading title 1 (Some 1);
                  Docx.Tbl (Docx.Table (Some "Table Grid") 4 (HEADER :: rows));
                  Docx.Heading "Project Summary" 2 None;
                  Docx.Paragraph paragraph;
                  Docx.PageBreak]))).
  rewrite add_issue_rows_spec.
  destruct (rmap row_of_issue issues); [|reflexivity]. simpl.
  destruct (Docx.run_text (PStr ai_summary)); reflexivity.
Qed.

Lemma rmap_ok {A B : Type} (f : A -> result B) (g : A -> B) (l : list A) :
  (forall x, f x = Ok (g x)) -> rmap f l = Ok (map g l).
Proof.
  intros H. induction l as [|x l IH]; simpl; [reflexivity|].
  rewrite H, IH. reflexivity.
Qed.

Lemma rmap_map {A B C : Type} (f : B -> result C) (g : A -> B) (l : list A) :
  rmap f (map g l) = rmap (fun x => f (g x)) l.
Proof.
  induction l as [|x l IH]; simpl; [reflexivity|]. rewrite IH. reflexivity.
Qed.




Lemma after_nil {A : Type} (o : outcome A) : after [] o = o.
Proof. destruct o; reflexivity. Qed.

Lemma bind_print {B : Type} s (k : unit -> M B) fs :
  bind (print s) k fs = after [EvPrint s] (k tt fs).
Proof. reflexivity. Qed.

Lemma bind_lift_ok {A B : Type} (a : A) (k : A -> M B) fs :
  bind (lift (Ok a)) k fs = k a fs.
Proof. unfold bind, lift. apply after_nil. Qed.

Lemma bind_lift_raise {A B : Type} e (k : A -> M B) fs :
  bind (lift (Raise e)) k fs = Outcome (Raise e) fs [].
Proof. reflexivity. Qed.

Lemma gets_app l1 l2 : gets (l1 ++ l2) = gets l1 ++ gets l2.
Proof. apply omap_app. Qed.

Lemma posts_app l1 l2 : posts (l1 ++ l2) = posts l1 ++ posts l2.
Proof. apply omap_app. Qed.

Lemma saves_app l1 l2 : saves (l1 ++ l2) = saves l1 ++ saves l2.
Proof. apply omap_app. Qed.

Lemma post_requests_app l1 l2 :
  post_requests (l1 ++ l2) = post_requests l1 ++ post_requests l2.
Proof. apply omap_app. Qed.

Lemma prints_silent lines :
  gets (map EvPrint lines) = [] /\ posts (map EvPrint lines) = []
  /\ saves (map EvPrint lines) = [] /\ post_requests (map EvPrint lines) = [].
Proof. induction lines; simpl; auto. Qed.

(** The call never raises; it hands the document to [doc.save] exactly
    when the document could be built; after a save that succeeds the
    file holds the document, after one that fails it holds what the
    environment leaves there. *)
Lemma generate_word_document_char env issues ai_summary project_name filename fs :
  let o := generate_word_document env issues ai_summary project_name filename fs in
  value o = Ok tt /\ gets (emitted o) = [] /\ posts (emitted o) = []
  /\ post_requests (emitted o) = []
  /\ match build_document issues ai_summary project_name with
     | Ok doc =>
         saves (emitted o) = [(filename, doc, save_error env filename)]
         /\ disk o = match save_error env filename with
                     | None => <[filename := doc]> fs
                     | Some _ =>
                         partial_alter (failed_save_leaves env filename)
                                       filename fs
                     end
     | Raise _ => saves (emitted o) = [] /\ disk o = fs
     end.
Proof.
  unfold generate_word_document, try_except, bind, after, lift, print, doc_save.
  simpl.
  destruct (build_document issues ai_summary project_name) as [doc|e]; simpl.
  - destruct (save_error env filename); simpl; repeat split; reflexivity.
  - repeat split; reflexivity.
Qed.

Lemma title_compatible pn :
  Docx.xml_compatible (TITLE pn) = Docx.xml_compatible pn.
Proof. unfold TITLE. rewrite xml_compatible_app. simpl. apply andb_true_r. Qed.

Lemma title_read_back pn :
  cr_to_lf (TITLE pn)
  = cr_to_lf pn +:+ ": Tasks completed or to be continued in the upcoming month.".
Proof. unfold TITLE. rewrite cr_to_lf_app. reflexivity. Qed.





(** ** [run] *)

Lemma posts_requests_nil evs : posts evs = [] -> post_requests evs = [].
Proof.
  induction evs as [|e evs IH]; [reflexivity|].
  destruct e; simpl; auto; discriminate.
Qed.

Lemma fetch_issues_eq env pn fs :
  exists evf,
    fetch_issues env pn fs = Outcome (Ok (fetched_from (gets evf))) fs evf
    /\ posts evf = [] /\ saves evf = [] /\ (length (gets evf) <= 1)%nat.
Proof.
  destruct (fetch_issues_char env pn fs) as (Hd & Hp & Hs & Hl & Hv).
  destruct (fetch_issues env pn fs) as [v d evf]. simpl in *. subst.
  exists evf. auto.
Qed.

Lemma summarize_eq env text fs :
  exists a evs,
    summarize_with_ollama env text fs = Outcome (Ok (summarized a)) fs evs
    /\ gets evs = [] /\ posts evs = [a] /\ saves evs = []
    /\ post_requests evs = [summarize_request text].
Proof.
  assert (Hreq : post_requests (emitted (summarize_with_ollama env text fs))
                 = [summarize_request text])
    by (summarize_cases env; reflexivity).
  destruct (summarize_char env text fs) as (Hd & Hg & Hs & a & Hp & Hv).
  destruct (summarize_with_ollama env text fs) as [v d evs]. simpl in *. subst.
  exists a, evs. auto.
Qed.

Lemma py_get_raise_extract issue k d e :
  py_get issue k d = Raise e -> extract_issue_data issue = Raise e.
Proof.
  destruct issue; simpl; intros H; try (injection H as <-; reflexivity).
  destruct (dict_lookup k d0); discriminate H.
Qed.

Lemma py_iter_len v elements :
  py_iter v = Ok elements -> exists n, py_len v = Ok n.
Proof. destruct v; simpl; intros H; try discriminate H; eauto. Qed.

(** The loop prints one line per issue and collects the normalised
    issues; it stops at the first issue that cannot be normalised. *)
Lemma process_issues_spec env issues n rest : forall i acc fs,
  py_len issues = Ok n ->
  exists lines,
    process_issues env issues i rest acc fs
    = Outcome (rbind (rmap extract_issue_data rest)
                     (fun sums => Ok (acc ++ sums)))
              fs (map EvPrint lines).
Proof.
  intros i acc fs Hlen. revert i acc.
  induction rest as [|issue rest IH]; intros i acc;
    cbn [process_issues rmap rbind].
  - exists []. rewrite app_nil_r. reflexivity.
  - rewrite Hlen, bind_lift_ok.
    destruct (py_get issue "key" (PStr "Unknown")) as [key|e] eqn:Hkey;
      [rewrite bind_lift_ok|].
    2:{ exists []. rewrite (py_get_raise_extract _ _ _ _ Hkey). reflexivity. }
    rewrite bind_print.
    destruct (extract_issue_data issue) as [data|e];
      [rewrite bind_lift_ok|].
    2:{ eexists [_]. reflexivity. }
    destruct (IH (i + 1) (acc ++ [data])) as (lines & Heq).
    rewrite Heq. eexists (_ :: lines). cbn [after rbind].
    destruct (rmap extract_issue_data rest) as [sums|e]; cbn [rbind];
      [rewrite <- app_assoc|]; reflexivity.
Qed.

(** The three ways a run can go: it stops after an empty fetch; it is
    aborted by an exception while the issues are prepared; or it goes
    through the summarizer and the report builder to the end. *)
Lemma run_cases env pn fs :
  exists evf,
    fetch_issues env pn fs = Outcome (Ok (fetched_from (gets evf))) fs evf
    /\ posts evf = [] /\ saves evf = [] /\ (length (gets evf) <= 1)%nat
    /\ let v := fetched_from (gets evf) in
       let start := [EvPrint "Starting JIRA to DOCX automation...";
                     EvPrint (str_repeat "=" 50)] in
       (py_truthy v = false
        /\ run env pn fs
           = Outcome (Ok tt) fs
               (start ++ evf
                ++ [EvPrint "No issues found or error fetching issues. Exiting."]))
       \/ (py_truthy v = true
           /\ exists e lines,
               prepared env v = Raise e
               /\ run env pn fs
                  = Outcome (Raise e) fs (start ++ evf ++ map EvPrint lines))
       \/ (py_truthy v = true
           /\ exists sums text lines a evs evg dg,
               prepared env v = Ok (sums, text)
               /\ summarize_with_ollama env text fs
                  = Outcome (Ok (summarized a)) fs evs
               /\ generate_word_document env sums (summarized a) pn
                    DEFAULT_FILENAME fs
                  = Outcome (Ok tt) dg evg
               /\ run env pn fs
                  = Outcome (Ok tt) dg
                      (start ++ evf ++ map EvPrint lines
                       ++ [EvPrint banner; EvPrint banner; EvPrint text]
                       ++ evs
                       ++ [EvPrint (nl +:+ "AI Summary:" +:+ nl +:+ summarized a)]
                       ++ evg
                       ++ [EvPrint banner;
                           EvPrint "Automation completed successfully!";
                           EvPrint ("Generated report for "
                                    +:+ int_str (Z.of_nat (length sums))
                                    +:+ " issues and project summaries.")])).
Proof.
  destruct (fetch_issues_eq env pn fs) as (evf & Hf & Hfp & Hfs & Hfl).
  exists evf. do 4 (split; [assumption|]). intros v start.
  unfold run, prepared. rewrite !bind_print, (bind_ok _ _ _ _ _ _ Hf). fold v.
  destruct (py_truthy v) eqn:Ht; cbn [negb].
  2:{ left. split; [reflexivity|]. rewrite bind_print. reflexivity. }
  right.
  destruct (py_iter v) as [elements|e] eqn:Hiter;
    [rewrite bind_lift_ok | rewrite bind_lift_raise]; cbn [rbind].
  2:{ left. split; [reflexivity|]. exists e, []. split; reflexivity. }
  destruct (py_iter_len _ _ Hiter) as (n & Hlen).
  destruct (process_issues_spec env v n elements 1 [] fs Hlen) as (lines & Hp).
  destruct (rmap extract_issue_data elements) as [sums|e]; cbn [rbind] in *;
    [rewrite (bind_ok _ _ _ _ _ _ Hp) | rewrite (bind_raise _ _ _ _ _ _ Hp)].
  2:{ left. split; [reflexivity|]. exists e, lines. split; reflexivity. }
  rewrite !bind_print. cbn [app].
  destruct (issues_string_of env sums) as [text|e] eqn:Htext;
    [rewrite bind_lift_ok | rewrite bind_lift_raise]; cbn [rbind].
  2:{ left. split; [reflexivity|]. exists e, (lines ++ [banner; banner]).
      split; [reflexivity|]. simpl. rewrite map_app. reflexivity. }
  rewrite bind_print.
  destruct (summarize_eq env text fs) as (a & evs & Hs & _).
  rewrite (bind_ok _ _ _ _ _ _ Hs), bind_print.
  destruct (generate_word_document_char env sums (summarized a) pn
              DEFAULT_FILENAME fs) as (Hgv & _).
  destruct (generate_word_document env sums (summarized a) pn
              DEFAULT_FILENAME fs) as [vg dg evg] eqn:Hg.
  simpl in Hgv. subst vg.
  rewrite (bind_ok _ _ _ _ _ _ Hg), !bind_print.
  right. split; [reflexivity|].
  exists sums, text, lines, a, evs, evg, dg.
  repeat (split; [first [assumption | reflexivity]|]).
  reflexivity.
Qed.

(** C7: when the fetch returns the empty list, [run] ends normally right
    after it: its trace is the two opening lines, the events of the fetch
    and the closing line, so nothing is posted, no document is handed to
    [doc.save] and the disk is as it was. *)
Theorem run_stops_on_empty_fetch env pn fs :
  value (fetch_issues env pn fs) = Ok (PList []) ->
  let o := run env pn fs in
  value o = Ok tt
  /\ disk o = fs
  /\ posts (emitted o) = []
  /\ saves (emitted o) = []
  /\ emitted o
     = [EvPrint "Starting JIRA to DOCX automation...";
        EvPrint (str_repeat "=" 50)]
       ++ emitted (fetch_issues env pn fs)
       ++ [EvPrint "No issues found or error fetching issues. Exiting."].
Proof.
  intros Hempty o. subst o.
  destruct (run_cases env pn fs) as (evf & Hf & Hfp & Hfs & _ & Hrun).
  rewrite Hf in Hempty |- *. simpl in Hempty. injection Hempty as Hv.
  rewrite Hv in Hrun. simpl in Hrun.
  destruct Hrun as [[_ Hrun] | [[Ht _] | [Ht _]]]; try discriminate Ht.
  rewrite Hrun. simpl.
  rewrite posts_app, saves_app, Hfp, Hfs. repeat split; reflexivity.
Qed.

Lemma run_stops_on_empty_fetch_witness :
  value (run (sample_env tracker_down llm_ok) "P" ∅) = Ok tt
  /\ disk (run (sample_env tracker_down llm_ok) "P" ∅) = ∅
  /\ posts (emitted (run (sample_env tracker_down llm_ok) "P" ∅)) = []
  /\ saves (emitted (run (sample_env tracker_down llm_ok) "P" ∅)) = [].
Proof.
  destruct (run_stops_on_empty_fetch (sample_env tracker_down llm_ok) "P" ∅)
    as (Hv & Hd & Hp & Hs & _).
  - reflexivity.
  - repeat split; assumption.
Defined.

(** ** The text given to the summarizer *)

Lemma issue_line_normalized env n : issue_line env (to_dict n) = Ok (line_of n).
Proof. reflexivity. Qed.

Lemma issues_string_of_normalized env (issues : list NormalizedIssue) :
  issues_string_of env (map to_dict issues) = Ok (str_join nl (map line_of issues)).
Proof.
  unfold issues_string_of. rewrite rmap_map.
  rewrite (rmap_ok _ line_of) by apply issue_line_normalized.
  reflexivity.
Qed.

Lemma joined_step a b l :
  fold_left (fun text line => text +:+ String "010"%char line) l
            (a +:+ String "010"%char b)
  = a +:+ String "010"%char
          (fold_left (fun text line => text +:+ String "010"%char line) l b).
Proof.
  revert b. induction l as [|x l IH]; intros b; [reflexivity|].
  cbn [fold_left]. rewrite <- IH. f_equal.
  rewrite append_assoc. reflexivity.
Qed.

Lemma str_join_joined lines : str_join nl lines = joined_by_newlines lines.
Proof.
  induction lines as [|a [|b l] IH]; [reflexivity | reflexivity |].
  change (a +:+ nl +:+ str_join nl (b :: l) = joined_by_newlines (a :: b :: l)).
  rewrite IH. unfold joined_by_newlines. cbn [fold_left].
  rewrite joined_step. reflexivity.
Qed.

(** C8: for normalised issues the text is the lines
    "Issue Key: k, Summary: s, Status: st", one per issue in order,
    joined by newlines: it is empty for no issue, the line for one
    issue, and for more the first line, a line feed and the text of the
    others; issues that differ only in their type give the same text;
    and this text is what a run posts to the summarizer. *)
Theorem issues_string_is_joined_lines env (issues : list NormalizedIssue) :
  issues_string_of env (map to_dict issues)
  = Ok (joined_by_newlines
          (map (fun n => "Issue Key: " +:+ ni_key n
                         +:+ ", Summary: " +:+ ni_summary n
                         +:+ ", Status: " +:+ ni_status n) issues))
  /\ issues_string_of env [] = Ok EmptyString
  /\ (forall n,
        issues_string_of env [to_dict n]
        = Ok ("Issue Key: " +:+ ni_key n +:+ ", Summary: " +:+ ni_summary n
              +:+ ", Status: " +:+ ni_status n))
  /\ (forall n n' others,
        exists text,
          issues_string_of env (map to_dict (n' :: others)) = Ok text
          /\ issues_string_of env (map to_dict (n :: n' :: others))
             = Ok (("Issue Key: " +:+ ni_key n +:+ ", Summary: " +:+ ni_summary n
                    +:+ ", Status: " +:+ ni_status n)
                   +:+ String "010"%char text))
  /\ (forall issues' : list NormalizedIssue,
        map (fun n => (ni_key n, ni_summary n, ni_status n)) issues'
        = map (fun n => (ni_key n, ni_summary n, ni_status n)) issues ->
        issues_string_of env (map to_dict issues')
        = issues_string_of env (map to_dict issues))
  /\ (forall pn fs v elements,
        value (fetch_issues env pn fs) = Ok v ->
        py_truthy v = true ->
        py_iter v = Ok elements ->
        rmap extract_issue_data elements = Ok (map to_dict issues) ->
        post_requests (emitted (run env pn fs))
        = [PostRequest
             "http://localhost:11434/api/generate"
             (PDict [("model", PStr "llama3");
                     ("prompt",
                      PStr (prompt
                              (joined_by_newlines
                                 (map (fun n => "Issue Key: " +:+ ni_key n
                                                +:+ ", Summary: " +:+ ni_summary n
                                                +:+ ", Status: " +:+ ni_status n)
                                      issues))));
                     ("stream", PBool false)])
             [("Content-Type", "application/json")]]).
Proof.
  split; [rewrite issues_string_of_normalized, str_join_joined; reflexivity|].
  split; [reflexivity|]. split; [reflexivity|]. split; [|split].
  - intros n n' others. eexists. split.
    + apply issues_string_of_normalized.
    + rewrite issues_string_of_normalized. reflexivity.
  - intros issues' Heq. rewrite !issues_string_of_normalized. do 2 f_equal.
    revert issues' Heq.
    induction issues as [|n issues IH]; intros [|n' issues'] Heq;
      try discriminate Heq; [reflexivity|].
    simpl in Heq. injection Heq as Hk Hs Hst Hrest.
    simpl. unfold line_of at 1 3. rewrite Hk, Hs, Hst.
    f_equal. apply IH, Hrest.
  - intros pn fs v elements Hv Ht Hiter Hsums.
    destruct (run_cases env pn fs) as (evf & Hf & Hfp & Hfs & _ & Hrun).
    rewrite Hf in Hv. simpl in Hv. injection Hv as Hv.
    cbv zeta in Hrun. rewrite Hv in Hrun.
    assert (Hprep : prepared env v
                    = Ok (map to_dict issues, str_join nl (map line_of issues))).
    { unfold prepared. rewrite Hiter. simpl. rewrite Hsums. simpl.
      rewrite issues_string_of_normalized. reflexivity. }
    destruct Hrun as [[Hf' _] | [(_ & e & lines & He & _)
                                | (_ & sums & text & lines & a & evs & evg & dg
                                   & Hp & Hs & Hg & Hrun)]].
    + rewrite Ht in Hf'. discriminate Hf'.
    + rewrite Hprep in He. discriminate He.
    + rewrite Hprep in Hp. injection Hp as <- <-.
      rewrite Hrun. cbn [emitted].
      destruct (summarize_eq env (str_join nl (map line_of issues)) fs)
        as (a' & evs' & Hs' & _ & _ & _ & Hreq).
      rewrite Hs in Hs'. injection Hs' as _ <-.
      destruct (generate_word_document_char env (map to_dict issues)
                  (summarized a) pn DEFAULT_FILENAME fs) as (_ & _ & _ & Hgr & _).
      rewrite Hg in Hgr. simpl in Hgr.
      rewrite !post_requests_app.
      rewrite (posts_requests_nil _ Hfp), Hreq, Hgr.
      destruct (prints_silent lines) as (_ & _ & _ & ->).
      rewrite str_join_joined. reflexivity.
Qed.

Lemma issues_string_is_joined_lines_witness :
  post_requests (emitted (run (sample_env tracker_two llm_ok) "P" ∅))
  = [PostRequest
       "http://localhost:11434/api/generate"
       (PDict [("model", PStr "llama3");
               ("prompt",
                PStr (prompt
                        ("Issue Key: PROJ-1, Summary: Fix crash, Status: Open"
                         +:+ String "010"%char
                               "Issue Key: PROJ-7, Summary: Add export, Status: Done")));
               ("stream", PBool false)])
       [("Content-Type", "application/json")]].
Proof.
  refine (proj2 (proj2 (proj2 (proj2 (proj2
            (issues_string_is_joined_lines
               (sample_env tracker_two llm_ok)
               [Normalized "Bug" "PROJ-1" "Fix crash" "Open";
                Normalized "Story" "PROJ-7" "Add export" "Done"])))))
            "P" ∅ (PList [sample_issue; second_issue])
            [sample_issue; second_issue] _ _ _ _);
    reflexivity.
Defined.

(** ** The report as a function of the answers *)




Lemma prepared_inv env v sums text :
  prepared env v = Ok (sums, text) ->
  exists elements,
    py_iter v = Ok elements /\ rmap extract_issue_data elements = Ok sums
    /\ issues_string_of env sums = Ok text.
Proof.
  unfold prepared. destruct (py_iter v) as [elements|e]; simpl;
    [|discriminate].
  destruct (rmap extract_issue_data elements) as [sums'|e] eqn:Hsums; simpl;
    [|discriminate].
  destruct (issues_string_of env sums') as [text'|e] eqn:Htext; simpl;
    [|discriminate].
  intros [= <- <-]. eauto.
Qed.







(** ** The end-to-end scenario *)

Example run_scenario :
  let o := run (sample_env tracker_ok llm_ok) "PROJ" ∅ in
  value o = Ok tt
  /\ saved_content (emitted o)
     = [([[HEADER; ["Bug"; "PROJ-1"; "Fix crash"; "Open"]]],
         ["All systems stable."])]
  /\ Docx.first_heading <$> (disk o !! DEFAULT_FILENAME)
     = Some (Some "PROJ: Tasks completed or to be continued in the upcoming month.").
Proof. vm_compute. repeat split; reflexivity. Qed.

Example run_without_issuetype :
  let o := run (sample_env
                  (inr (Response 200 ""
                          (Ok (PDict [("issues", PList [issue_without_issuetype])]))))
                  llm_ok) "PROJ" ∅ in
  value o = Raise (Exn AttributeError "'str' object has no attribute 'get'")
  /\ saves (emitted o) = [] /\ posts (emitted o) = [].
Proof. vm_compute. repeat split; reflexivity. Qed.

Example strip_text : strip " text " = "text".
Proof. reflexivity. Qed.

Example strip_inner : strip (nl +:+ " a  b " +:+ nl) = "a  b".
Proof. reflexivity. Qed.

Example int_str_200 : int_str 200 = "200".
Proof. reflexivity. Qed.

Example validate_config_sample :
  validate_config (sample_env tracker_ok llm_ok) = Ok tt.
Proof. reflexivity. Qed.

Example validate_config_placeholder :
  validate_config
    (Environment (Some "your_token_here") (Some "https://tracker.example.org")
                 (Some "AND status = Open")
                 (fun _ => tracker_ok) (fun _ => llm_ok) (fun _ => None)
                 (fun _ => "?") (fun _ old => old))
  = Raise (Exn ValueError "JIRA_TOKEN must be set in .env file").
Proof. reflexivity. Qed.

Example run_text_line_ends :
  Docx.run_text (PStr ("a" +:+ Docx.CR +:+ Docx.LF +:+ "b" +:+ Docx.TAB))
  = Ok ("a" +:+ Docx.LF +:+ Docx.LF +:+ "b" +:+ Docx.TAB).
Proof. reflexivity. Qed.

Example run_text_form_feed :
  Docx.run_text (PStr ("a" +:+ FF +:+ "b")) = Raise Docx.xml_error.
Proof. reflexivity. Qed.

Example run_text_list :
  Docx.run_text (PList [PStr "ab"; PStr "cd"]) = Ok "abcd".
Proof. reflexivity. Qed.

Example run_text_none :
  Docx.run_text PNone
  = Raise (Exn TypeError "'NoneType' object is not iterable").
Proof. reflexivity. Qed.

Example run_text_list_of_int :
  Docx.run_text (PList [PInt 1])
  = Raise (Exn TypeError "'in <string>' requires string as left operand, not int").
Proof. reflexivity. Qed.

(** * Further properties *)

(** ** [validate_config] *)

Lemma prefix_spec needle : forall hay,
  String.prefix needle hay = true <-> exists b, hay = needle +:+ b.
Proof.
  induction needle as [|c needle IH]; intros hay.
  - split; [intros _; exists hay; reflexivity | destruct hay; reflexivity].
  - destruct hay as [|c' hay]; simpl.
    + split; [discriminate | intros [b Hb]; discriminate Hb].
    + destruct (Ascii.ascii_dec c c') as [->|Hne].
      * rewrite IH. split; intros [b Hb]; exists b.
        -- change (String c' hay = String c' (needle +:+ b)). now rewrite Hb.
        -- change (String c' hay = String c' (needle +:+ b)) in Hb.
           now injection Hb.
      * split; [discriminate|]. intros [b Hb].
        change (String c' hay = String c (needle +:+ b)) in Hb.
        injection Hb as Hc _. congruence.
Qed.

(** [needle in hay] holds exactly when [hay] has [needle] somewhere
    inside. *)
Lemma str_contains_spec needle : forall hay,
  str_contains needle hay = true <-> exists a b, hay = a +:+ needle +:+ b.
Proof.
  induction hay as [|c hay IH].
  - cbn [str_contains]. rewrite orb_false_r, prefix_spec. split.
    + intros [b Hb]. exists EmptyString, b. exact Hb.
    + intros (a & b & Hab). destruct a as [|x a]; [exists b; exact Hab|].
      discriminate Hab.
  - cbn [str_contains]. rewrite orb_true_iff, IH, prefix_spec. split.
    + intros [[b Hb] | (a & b & Hab)].
      * exists EmptyString, b. exact Hb.
      * exists (String c a), b.
        change (String c hay = String c (a +:+ needle +:+ b)). now rewrite Hab.
    + intros (a & b & Hab). destruct a as [|x a].
      * left. exists b. exact Hab.
      * right. exists a, b.
        change (String c hay = String x (a +:+ needle +:+ b)) in Hab.
        now injection Hab.
Qed.

Lemma not_opt_false o : not_opt o = false <-> exists s, o = Some s /\ s <> "".
Proof.
  destruct o as [s|]; simpl.
  - destruct (String.eqb_spec s "") as [->|Hne]; split.
    + discriminate.
    + intros (s' & [= <-] & Hs). contradiction.
    + eauto.
    + reflexivity.
  - split; [discriminate | intros (s & Hs & _); discriminate Hs].
Qed.

(** X1: the configuration is accepted exactly when the token is set, not
    empty and not the placeholder, the URL is set, not empty and has
    "yourdomain" nowhere inside, and the filter is set and not empty. *)
Theorem validate_config_accepts env :
  validate_config env = Ok tt <->
  (exists t, JIRA_TOKEN env = Some t /\ t <> "" /\ t <> "your_token_here")
  /\ (exists u, JIRA_URL env = Some u /\ u <> ""
                /\ forall a b, u <> a +:+ "yourdomain" +:+ b)
  /\ (exists q, JQL env = Some q /\ q <> "").
Proof.
  unfold validate_config.
  destruct (not_opt (JIRA_TOKEN env)) eqn:Ht; simpl.
  { split; [discriminate|]. intros ((t & Ht' & Hne & _) & _).
    assert (not_opt (JIRA_TOKEN env) = false) as Hf
        by (apply not_opt_false; eauto).
    congruence. }
  apply not_opt_false in Ht. destruct Ht as (t & Ht & Htne). rewrite Ht.
  destruct (bool_decide_reflect (Some t = Some "your_token_here")) as [Hp|Hp].
  { split; [discriminate|]. intros ((t' & [= <-] & _ & Hne) & _).
    injection Hp as ->. contradiction. }
  destruct (not_opt (JIRA_URL env)) eqn:Hu; simpl.
  { split; [discriminate|]. intros (_ & (u & Hu' & Hne & _) & _).
    assert (not_opt (JIRA_URL env) = false) as Hf
        by (apply not_opt_false; eauto).
    congruence. }
  apply not_opt_false in Hu. destruct Hu as (u & Hu & Hune). rewrite Hu. simpl.
  destruct (str_contains "yourdomain" u) eqn:Hc.
  { split; [discriminate|]. intros (_ & (u' & [= <-] & _ & Hnot) & _).
    apply str_contains_spec in Hc. destruct Hc as (a & b & Hab).
    destruct (Hnot a b Hab). }
  destruct (not_opt (JQL env)) eqn:Hq.
  { split; [discriminate|]. intros (_ & _ & (q & Hq' & Hne)).
    assert (not_opt (JQL env) = false) as Hf by (apply not_opt_false; eauto).
    congruence. }
  apply not_opt_false in Hq. destruct Hq as (q & Hq & Hqne).
  split; [intros _|reflexivity].
  split; [exists t; repeat split; auto; congruence|].
  split; [|eauto].
  exists u. repeat split; auto. intros a b Hab.
  assert (str_contains "yourdomain" u = true) as Ht'
      by (apply str_contains_spec; eauto).
  congruence.
Qed.

Lemma validate_config_settings env :
  validate_config env = Ok tt ->
  exists t q, JIRA_TOKEN env = Some t /\ JQL env = Some q /\ q <> "".
Proof.
  unfold validate_config.
  destruct (not_opt (JIRA_TOKEN env)) eqn:Ht; simpl; [discriminate|].
  destruct (bool_decide _); [discriminate|].
  destruct (_ || _); [discriminate|].
  destruct (not_opt (JQL env)) eqn:Hq; [discriminate|]. intros _.
  apply not_opt_false in Ht, Hq.
  destruct Ht as (t & Ht & _). destruct Hq as (q & Hq & Hne). eauto.
Qed.

(** ** More on [fetch_issues] *)

Lemma fetch_issues_get_requests env pn fs q :
  JQL env = Some q ->
  get_requests (emitted (fetch_issues env pn fs))
  = [search_request (JIRA_TOKEN env) pn q].
Proof.
  intros H. revert H. fetch_cases env; intros H; try discriminate H;
    injection H as ->; reflexivity.
Qed.

(** X2: on an instance, whose configuration the constructor has
    validated, [fetch_issues] sends exactly one GET: to the search
    endpoint, with the bearer token, the filter
    [project = '<name>' <JQL>] with the name pasted in unescaped, the
    fixed field list and a timeout of 30. *)
Theorem fetch_issues_sends_one_request env pn fs :
  validate_config env = Ok tt ->
  exists t q,
    JIRA_TOKEN env = Some t /\ JQL env = Some q
    /\ get_requests (emitted (fetch_issues env pn fs))
       = [GetRequest
            "https://tracker.nci.nih.gov/rest/api/2/search"
            [("Authorization", "Bearer " +:+ t); ("Accept", "application/json")]
            [("jql", "project = '" +:+ pn +:+ "' " +:+ q);
             ("fields",
              "issuetype,key,summary,status,project,priority,assignee,reporter,description")]
            30].
Proof.
  intros Hok. destruct (validate_config_settings env Hok) as (t & q & Ht & Hq & _).
  exists t, q. split; [exact Ht|]. split; [exact Hq|].
  rewrite (fetch_issues_get_requests env pn fs q Hq), Ht.
  unfold search_request. rewrite !append_assoc. reflexivity.
Qed.

Lemma fetch_issues_sends_one_request_witness :
  exists t q,
    JIRA_TOKEN (sample_env tracker_ok llm_ok) = Some t
    /\ JQL (sample_env tracker_ok llm_ok) = Some q
    /\ get_requests (emitted (fetch_issues (sample_env tracker_ok llm_ok)
                                "O'Brien" ∅))
       = [GetRequest
            "https://tracker.nci.nih.gov/rest/api/2/search"
            [("Authorization", "Bearer " +:+ t); ("Accept", "application/json")]
            [("jql", "project = '" +:+ "O'Brien" +:+ "' " +:+ q);
             ("fields",
              "issuetype,key,summary,status,project,priority,assignee,reporter,description")]
            30].
Proof.
  apply (fetch_issues_sends_one_request (sample_env tracker_ok llm_ok) "O'Brien" ∅).
  reflexivity.
Defined.

(** [fetch_issues] sends no request exactly when the filter setting is
    unset (which the constructor excludes); the concatenation that builds
    the query then raises, and the call prints one line and returns the
    empty list. *)
Theorem fetch_issues_without_filter env pn fs :
  (get_requests (emitted (fetch_issues env pn fs)) = [] <-> JQL env = None)
  /\ (JQL env = None ->
      fetch_issues env pn fs
      = Outcome (Ok (PList [])) fs
          [EvPrint ("Unexpected error: can only concatenate str (not "
                    +:+ dquote +:+ "NoneType" +:+ dquote +:+ ") to str")]).
Proof.
  split.
  - destruct (JQL env) as [q|] eqn:Hq.
    + rewrite (fetch_issues_get_requests env pn fs q Hq).
      split; discriminate.
    + split; [reflexivity|]. intros _.
      unfold fetch_issues, fetch_issues_try, try_except, bind, lift, str_add_opt.
      rewrite Hq. reflexivity.
  - intros Hq.
    unfold fetch_issues, fetch_issues_try, try_except, bind, lift, str_add_opt.
    rewrite Hq. reflexivity.
Qed.

Lemma fetch_issues_without_filter_witness :
  fetch_issues env_without_jql "P" ∅
  = Outcome (Ok (PList [])) ∅
      [EvPrint ("Unexpected error: can only concatenate str (not "
                +:+ dquote +:+ "NoneType" +:+ dquote +:+ ") to str")].
Proof.
  apply (proj2 (fetch_issues_without_filter env_without_jql "P" ∅)).
  reflexivity.
Defined.

(** X3: [fetch_issues] only reads: whatever the configuration and the
    server do, it leaves the disk as it was, posts nothing, saves
    nothing and sends at most one GET. *)
Theorem fetch_issues_only_reads env pn fs :
  let o := fetch_issues env pn fs in
  disk o = fs
  /\ posts (emitted o) = [] /\ saves (emitted o) = []
  /\ (length (get_requests (emitted o)) <= 1)%nat.
Proof.
  intros o. subst o.
  destruct (fetch_issues_char env pn fs) as (Hd & Hp & Hs & _).
  repeat split; auto.
  destruct (JQL env) as [q|] eqn:Hq.
  - rewrite (fetch_issues_get_requests env pn fs q Hq). simpl. lia.
  - rewrite (proj2 (proj1 (fetch_issues_without_filter env pn fs)) Hq).
    simpl. lia.
Qed.

(** X4: after a 200 answer whose body has an [issues] entry,
    [fetch_issues] returns that entry as it is when [len] accepts it (a
    list, but also a string or an object), and the empty list when it
    does not (null, a number, a boolean). *)
Theorem fetch_issues_returns_sized_entry env pn fs req resp body v :
  In (EvGet req (inr resp)) (emitted (fetch_issues env pn fs)) ->
  status_code resp = 200 ->
  json resp = Ok body ->
  body_field body "issues" = Some v ->
  value (fetch_issues env pn fs)
  = Ok (match v with
        | PStr _ | PList _ | PDict _ => v
        | PNone | PBool _ | PInt _ | PFloat _ => PList []
        end).
Proof.
  intros Hin Hstatus Hjson Hfield.
  rewrite (fetch_issues_answer _ _ _ _ _ Hin).
  unfold fetched. rewrite Hstatus, Hjson. simpl.
  destruct body; try discriminate Hfield.
  simpl in *. rewrite Hfield. simpl. destruct v; reflexivity.
Qed.

Lemma fetch_issues_returns_sized_entry_witness :
  value (fetch_issues (sample_env tracker_null_issues llm_ok) "P" ∅)
  = Ok (PList []).
Proof.
  refine (fetch_issues_returns_sized_entry
            (sample_env tracker_null_issues llm_ok) "P" ∅ _
            (Response 200 "" (Ok (PDict [("issues", PNone)]))) _ PNone _ _ _ _).
  - simpl. right. left. reflexivity.
  - reflexivity.
  - reflexivity.
  - reflexivity.
Defined.

(** ** More on [summarize_with_ollama] *)

(** X5: whatever the text and whatever the server does,
    [summarize_with_ollama] posts exactly once, to the local endpoint,
    the model name, the fixed instructions followed by the text, and
    [stream] off; it sends no GET, saves nothing and leaves the disk as
    it was. *)
Theorem summarize_posts_once env text fs :
  let o := summarize_with_ollama env text fs in
  post_requests (emitted o)
  = [PostRequest "http://localhost:11434/api/generate"
                 (PDict [("model", PStr "llama3");
                         ("prompt", PStr (prompt text));
                         ("stream", PBool false)])
                 [("Content-Type", "application/json")]]
  /\ (exists instructions, prompt text = instructions +:+ text)
  /\ gets (emitted o) = [] /\ saves (emitted o) = [] /\ disk o = fs.
Proof.
  intros o. subst o.
  destruct (summarize_eq env text fs) as (a & evs & Heq & Hg & _ & Hs & Hreq).
  rewrite Heq. simpl. rewrite Hreq, Hg, Hs.
  split; [reflexivity|]. split; [|auto].
  eexists. unfold prompt. rewrite <- !append_assoc. reflexivity.
Qed.

(** X6: after a 200 answer whose [response] entry is not a string, the
    result is the error text for the failed [strip], naming the type of
    the entry. *)
Theorem summarize_response_not_a_string env text fs req resp body v :
  In (EvPost req (inr resp)) (emitted (summarize_with_ollama env text fs)) ->
  status_code resp = 200 ->
  json resp = Ok body ->
  body_field body "response" = Some v ->
  (forall s, v <> PStr s) ->
  value (summarize_with_ollama env text fs)
  = Ok ("Error generating summary: '" +:+ type_name v
        +:+ "' object has no attribute 'strip'").
Proof.
  intros Hin Hstatus Hjson Hfield Hv.
  rewrite (summarize_answer _ _ _ _ _ Hin).
  unfold summarized. rewrite Hstatus, Hjson. simpl.
  destruct body; try discriminate Hfield.
  simpl in *. rewrite Hfield. simpl.
  destruct v; try reflexivity. destruct (Hv s eq_refl).
Qed.

Lemma summarize_response_not_a_string_witness :
  value (summarize_with_ollama (sample_env tracker_ok llm_null_response) "x" ∅)
  = Ok "Error generating summary: 'NoneType' object has no attribute 'strip'".
Proof.
  refine (summarize_response_not_a_string
            (sample_env tracker_ok llm_null_response) "x" ∅ _
            (Response 200 "" (Ok (PDict [("response", PNone)]))) _ PNone
            _ _ _ _ _).
  - simpl. right. left. reflexivity.
  - reflexivity.
  - reflexivity.
  - reflexivity.
  - intros s H. discriminate H.
Defined.

Lemma lstrip_all_space s : all_space s = true -> lstrip s = EmptyString.
Proof.
  induction s as [|c s IH]; simpl; [reflexivity|].
  destruct (py_isspace c); simpl; [exact IH | discriminate].
Qed.

Lemma all_space_app a b :
  all_space (a +:+ b) = all_space a && all_space b.
Proof.
  induction a as [|c a IH]; [reflexivity|].
  change (py_isspace c && all_space (a +:+ b)
          = py_isspace c && all_space a && all_space b).
  rewrite IH. apply andb_assoc.
Qed.

Lemma strip_empty_iff s : strip s = EmptyString <-> all_space s = true.
Proof.
  split.
  - intros He. destruct (strip_spec s) as (l & r & Hs & Hl & Hr & _).
    rewrite He in Hs. rewrite Hs, all_space_app, Hl. exact Hr.
  - intros Ha. unfold strip. rewrite (lstrip_all_space s Ha). reflexivity.
Qed.

(** X7: the summary can be empty: after a 200 answer with a string
    [response] the result is the empty string exactly when the string is
    whitespace only (the empty string included). *)
Theorem summarize_empty_summary env text fs req resp body s :
  In (EvPost req (inr resp)) (emitted (summarize_with_ollama env text fs)) ->
  status_code resp = 200 ->
  json resp = Ok body ->
  body_field body "response" = Some (PStr s) ->
  value (summarize_with_ollama env text fs) = Ok EmptyString
  <-> all_space s = true.
Proof.
  intros Hin Hstatus Hjson Hfield.
  rewrite (summarize_answer _ _ _ _ _ Hin).
  unfold summarized. rewrite Hstatus, Hjson. simpl.
  destruct body; try discriminate Hfield.
  simpl in *. rewrite Hfield. simpl.
  rewrite <- strip_empty_iff. split; [intros [= ->]; reflexivity | intros ->; reflexivity].
Qed.

Lemma summarize_empty_summary_witness :
  value (summarize_with_ollama (sample_env tracker_ok llm_blank) "x" ∅)
  = Ok EmptyString.
Proof.
  refine (proj2 (summarize_empty_summary
                   (sample_env tracker_ok llm_blank) "x" ∅ _
                   (Response 200 "" (Ok (PDict [("response", PStr "  ")])))
                   _ "  " _ _ _ _) _).
  - simpl. right. left. reflexivity.
  - reflexivity.
  - reflexivity.
  - reflexivity.
  - reflexivity.
Defined.

(** ** More on [generate_word_document] *)

Lemma rmap_Forall2 {A B : Type} (f : A -> result B) (l : list A) : forall l',
  rmap f l = Ok l' <-> Forall2 (fun x y => f x = Ok y) l l'.
Proof.
  induction l as [|x l IH]; intros l'; simpl.
  - split; [intros [= <-]; constructor | intros H; inversion H; reflexivity].
  - destruct (f x) as [y|e] eqn:Hx; simpl.
    + destruct (rmap f l) as [ys|e] eqn:Hl; simpl.
      * split.
        -- intros [= <-]. constructor; [exact Hx | apply IH; reflexivity].
        -- intros H. inversion H as [|? y' ? ys' Hy Hys]; subst.
           apply IH in Hys. congruence.
      * split; [discriminate|]. intros H.
        inversion H as [|? y' ? ys' Hy Hys]; subst.
        apply IH in Hys. discriminate Hys.
    + split; [discriminate|]. intros H.
      inversion H as [|? y' ? ys' Hy Hys]; subst. congruence.
Qed.

Lemma rmap_raise_in {A B : Type} (f : A -> result B) (l : list A) x e :
  In x l -> f x = Raise e -> exists e', rmap f l = Raise e'.
Proof.
  induction l as [|y l IH]; simpl; [contradiction|].
  intros [->|Hin] Hx.
  - rewrite Hx. simpl. eauto.
  - destruct (f y); simpl; [|eauto].
    destruct (IH Hin Hx) as (e' & ->). simpl. eauto.
Qed.

Lemma generate_word_document_built env issues ai_summary project_name filename fs doc :
  build_document issues ai_summary project_name = Ok doc ->
  generate_word_document env issues ai_summary project_name filename fs
  = match save_error env filename with
    | None =>
        Outcome (Ok tt) (<[filename := doc]> fs)
          [EvPrint ("Generating Word document: " +:+ filename);
           EvSave filename doc None;
           EvPrint ("Document saved successfully as " +:+ filename)]
    | Some e =>
        Outcome (Ok tt)
          (partial_alter (failed_save_leaves env filename) filename fs)
          [EvPrint ("Generating Word document: " +:+ filename);
           EvSave filename doc (Some e);
           EvPrint ("Error generating Word document: " +:+ exn_msg e)]
    end.
Proof.
  intros Hb.
  unfold generate_word_document, try_except, bind, after, lift, print, doc_save.
  rewrite Hb. destruct (save_error env filename); reflexivity.
Qed.

Lemma generate_word_document_not_built env issues ai_summary project_name filename fs e :
  build_document issues ai_summary project_name = Raise e ->
  generate_word_document env issues ai_summary project_name filename fs
  = Outcome (Ok tt) fs
      [EvPrint ("Generating Word document: " +:+ filename);
       EvPrint ("Error generating Word document: " +:+ exn_msg e)].
Proof.
  intros Hb.
  unfold generate_word_document, try_except, bind, after, lift, print, doc_save.
  rewrite Hb. reflexivity.
Qed.



Lemma build_document_raise_rows issues ai_summary project_name e :
  rmap row_of_issue issues = Raise e ->
  exists e', build_document issues ai_summary project_name = Raise e'.
Proof.
  intros He. rewrite build_document_spec, He.
  destruct (Docx.run_text (PStr (TITLE project_name))); simpl; eauto.
Qed.

(** X9: when an element of [issues] is not a dictionary, the document is
    dropped: the call prints the error, hands nothing to [doc.save],
    leaves the disk as it was and still returns normally. *)
Theorem generate_word_document_bad_issue
  env issues issue ai_summary project_name filename fs :
  In issue issues ->
  (forall d, issue <> PDict d) ->
  let o := generate_word_document env issues ai_summary project_name filename fs in
  value o = Ok tt /\ saves (emitted o) = [] /\ disk o = fs
  /\ exists e,
       emitted o
       = [EvPrint ("Generating Word document: " +:+ filename);
          EvPrint ("Error generating Word document: " +:+ exn_msg e)].
Proof.
  intros Hin Hnd o. subst o.
  assert (Hrow : row_of_issue issue = Raise (no_attribute issue "get")).
  { destruct issue; try reflexivity. destruct (Hnd d eq_refl). }
  destruct (rmap_raise_in _ _ _ _ Hin Hrow) as (e & He).
  destruct (build_document_raise_rows issues ai_summary project_name e He)
    as (e' & Hb).
  rewrite (generate_word_document_not_built _ _ _ _ _ _ _ Hb). simpl.
  repeat split; eauto.
Qed.

Lemma generate_word_document_bad_issue_witness :
  saves (emitted (generate_word_document (sample_env tracker_ok llm_ok)
                    [to_dict (Normalized "Bug" "PROJ-1" "Fix crash" "Open");
                     PStr "PROJ-2"]
                    "summary" "P" "report.docx" ∅)) = []
  /\ disk (generate_word_document (sample_env tracker_ok llm_ok)
             [to_dict (Normalized "Bug" "PROJ-1" "Fix crash" "Open");
              PStr "PROJ-2"]
             "summary" "P" "report.docx" ∅) = ∅.
Proof.
  destruct (generate_word_document_bad_issue (sample_env tracker_ok llm_ok)
              [to_dict (Normalized "Bug" "PROJ-1" "Fix crash" "Open");
               PStr "PROJ-2"]
              (PStr "PROJ-2") "summary" "P" "report.docx" ∅)
    as (_ & Hs & Hd & _).
  - simpl. right. left. reflexivity.
  - intros d H. discriminate H.
  - split; assumption.
Defined.

Lemma py_get_get_str d k dflt s :
  get_str d k dflt = Some s -> py_get (PDict d) k (PStr dflt) = Ok (PStr s).
Proof.
  unfold get_str. simpl.
  destruct (dict_lookup k d) as [[]|]; intros H; try discriminate H;
    injection H as ->; reflexivity.
Qed.

Lemma row_for_row_of_issue issue row :
  row_for issue row -> row_of_issue issue = Ok row.
Proof.
  intros (d & a & b & c & e & -> & Ha & Hb & Hc & He & Ca & Cb & Cc & Ce & ->).
  unfold row_of_issue.
  rewrite (py_get_get_str _ _ _ _ Ha), (py_get_get_str _ _ _ _ Hb),
    (py_get_get_str _ _ _ _ Hc), (py_get_get_str _ _ _ _ He).
  cbn [rbind]. rewrite !run_text_str, Ca, Cb, Cc, Ce. reflexivity.
Qed.

(** X10: for a project name and a summary that the document library
    accepts and dictionaries whose entries, where present, are strings
    it accepts, the table holds, after the header, one row per
    dictionary in order and the paragraph holds the summary, each text
    with its carriage returns read back as line feeds; a missing
    "issue type" shows as "N/A", a missing "issue key" as "No summary",
    a missing "summary" as "No summary" and a missing "status" as
    "No status". *)
Theorem generate_word_document_fills_defaults
  env issues rows ai_summary project_name filename fs :
  Docx.xml_compatible project_name = true ->
  Docx.xml_compatible ai_summary = true ->
  Forall2 row_for issues rows ->
  saved_content
    (emitted (generate_word_document env issues ai_summary project_name
                                     filename fs))
  = [([["Issue Type"; "Issue key"; "Summary"; "Status"] :: rows],
      [cr_to_lf ai_summary])].
Proof.
  intros Hpn Hai Hrows.
  assert (Hr : rmap row_of_issue issues = Ok rows).
  { apply rmap_Forall2. eapply Forall2_impl; [exact Hrows|].
    apply row_for_row_of_issue. }
  pose proof (build_document_spec issues ai_summary project_name) as Hb.
  rewrite Hr, !run_text_str, title_compatible, Hpn, Hai in Hb. simpl in Hb.
  rewrite (generate_word_document_built _ _ _ _ _ _ _ Hb).
  destruct (save_error env filename); reflexivity.
Qed.

Lemma generate_word_document_fills_defaults_witness :
  saved_content
    (emitted (generate_word_document (sample_env tracker_ok llm_ok)
                [PDict []; PDict [("status", PStr "Open")]]
                "text" "P" "report.docx" ∅))
  = [([["Issue Type"; "Issue key"; "Summary"; "Status"]
       :: [["N/A"; "No summary"; "No summary"; "No status"];
           ["N/A"; "No summary"; "No summary"; "Open"]]], ["text"])].
Proof.
  apply (generate_word_document_fills_defaults (sample_env tracker_ok llm_ok)
           [PDict []; PDict [("status", PStr "Open")]]
           [["N/A"; "No summary"; "No summary"; "No status"];
            ["N/A"; "No summary"; "No summary"; "Open"]]
           "text" "P" "report.docx" ∅ eq_refl eq_refl).
  repeat constructor.
  - exists [], "N/A", "No summary", "No summary", "No status".
    repeat split; reflexivity.
  - exists [("status", PStr "Open")], "N/A", "No summary", "No summary", "Open".
    repeat split; reflexivity.
Defined.

Lemma build_document_structure_rows issues ai_summary project_name doc :
  build_document issues ai_summary project_name = Ok doc ->
  exists rows,
    Docx.tables doc = [HEADER :: rows] /\ length rows = length issues.
Proof.
  rewrite build_document_spec.
  destruct (Docx.run_text (PStr (TITLE project_name))) as [title|e]; simpl;
    [|discriminate].
  destruct (rmap row_of_issue issues) as [rows|e] eqn:Hr; simpl;
    [|discriminate].
  destruct (Docx.run_text (PStr ai_summary)) as [paragraph|e]; simpl;
    [|discriminate].
  intros [= <-]. exists rows. split; [reflexivity|].
  apply rmap_Forall2 in Hr. symmetry. eapply Forall2_length, Hr.
Qed.

Lemma row_of_issue_length issue row :
  row_of_issue issue = Ok row -> length row = 4%nat.
Proof.
  unfold row_of_issue.
  repeat (match goal with
          | |- context [py_get issue ?k ?d] =>
              destruct (py_get issue k d) as [?v|?e]; simpl; [|discriminate]
          end;
          match goal with
          | |- context [Docx.run_text ?v] =>
              destruct (Docx.run_text v) as [?s|?e]; simpl; [|discriminate]
          end).
  intros [= <-]. reflexivity.
Qed.

(** X11: a document can be built only for a project name and a summary
    that the document library accepts, and then it has exactly five
    parts in this order: the centred level-1 title, the "Table Grid"
    table of four columns whose rows are the header and one row of four
    cells per issue, the level-2 heading "Project Summary", one
    paragraph holding the summary, and a page break; the title and the
    paragraph hold their texts with carriage returns read back as line
    feeds. *)
Theorem build_document_structure issues ai_summary project_name doc :
  build_document issues ai_summary project_name = Ok doc ->
  exists rows,
    doc = [Docx.Heading
             (cr_to_lf project_name
              +:+ ": Tasks completed or to be continued in the upcoming month.")
             1 (Some 1);
           Docx.Tbl (Docx.Table (Some "Table Grid") 4
                       (["Issue Type"; "Issue key"; "Summary"; "Status"] :: rows));
           Docx.Heading "Project Summary" 2 None;
           Docx.Paragraph (cr_to_lf ai_summary);
           Docx.PageBreak]
    /\ Docx.xml_compatible project_name = true
    /\ Docx.xml_compatible ai_summary = true
    /\ length rows = length issues
    /\ Forall (fun row => length row = 4%nat) rows.
Proof.
  rewrite build_document_spec, !run_text_str, title_compatible.
  destruct (Docx.xml_compatible project_name); simpl; [|discriminate].
  destruct (rmap row_of_issue issues) as [rows|e] eqn:Hr; simpl;
    [|discriminate].
  destruct (Docx.xml_compatible ai_summary); simpl; [|discriminate].
  intros [= <-]. exists rows. rewrite title_read_back.
  split; [reflexivity|]. split; [reflexivity|]. split; [reflexivity|].
  apply rmap_Forall2 in Hr. split.
  - symmetry. eapply Forall2_length, Hr.
  - clear -Hr. induction Hr as [|issue row issues rows Hrow _ IH];
      constructor; eauto using row_of_issue_length.
Qed.

Lemma build_document_structure_witness :
  exists rows : list (list string),
    length rows = 1%nat /\ Forall (fun row => length row = 4%nat) rows.
Proof.
  destruct (build_document_structure [PDict []] ("line" +:+ Docx.CR) "P"
              [Docx.Heading
                 "P: Tasks completed or to be continued in the upcoming month."
                 1 (Some 1);
               Docx.Tbl (Docx.Table (Some "Table Grid") 4
                           [HEADER;
                            ["N/A"; "No summary"; "No summary"; "No status"]]);
               Docx.Heading "Project Summary" 2 None;
               Docx.Paragraph ("line" +:+ Docx.LF);
               Docx.PageBreak])
    as (rows & _ & _ & _ & Hl & Hf).
  - vm_compute. reflexivity.
  - exists rows. split; assumption.
Defined.

(** ** More on the normalisation step *)

Lemma extract_issue_data_shape issue d :
  extract_issue_data issue = Ok d ->
  exists t k s st, d = issue_data t k s st.
Proof.
  unfold extract_issue_data.
  repeat match goal with
         | |- context [rbind (py_get ?v ?k ?dflt) _] =>
             destruct (py_get v k dflt) as [?x|?e]; simpl; [|discriminate]
         end.
  intros [= <-]. eauto.
Qed.

Lemma rmap_total {A B : Type} (f : A -> result B) (l : list A) :
  Forall (fun x => exists y, f x = Ok y) l -> exists l', rmap f l = Ok l'.
Proof.
  induction 1 as [|x l [y Hy] _ [l' Hl']]; simpl; [eauto|].
  rewrite Hy, Hl'. simpl. eauto.
Qed.

(** X12: when every fetched issue could be normalised, there is one
    record per issue, each with exactly the four keys, and building the
    text for the summarizer from them cannot fail. *)
Theorem normalised_issues_flatten env elements sums :
  rmap extract_issue_data elements = Ok sums ->
  length sums = length elements
  /\ Forall (fun d => exists t k s st,
               d = PDict [("issue type", t); ("issue key", k);
                          ("summary", s); ("status", st)]) sums
  /\ exists text, issues_string_of env sums = Ok text.
Proof.
  intros Hs. apply rmap_Forall2 in Hs.
  assert (Hshape : Forall (fun d => exists t k s st, d = issue_data t k s st) sums).
  { clear -Hs. induction Hs as [|issue d elements sums Hd _ IH];
      constructor; eauto using extract_issue_data_shape. }
  split; [symmetry; eapply Forall2_length, Hs|]. split; [exact Hshape|].
  unfold issues_string_of.
  destruct (rmap_total (issue_line env) sums) as (lines & ->); [|simpl; eauto].
  eapply Forall_impl; [exact Hshape|].
  intros d (t & k & s & st & ->). eexists. reflexivity.
Qed.

Lemma normalised_issues_flatten_witness :
  exists text,
    issues_string_of (sample_env tracker_ok llm_ok)
      [issue_data (PStr "Bug") (PStr "PROJ-1") (PStr "Fix crash") (PStr "Open")]
    = Ok text.
Proof.
  apply (normalised_issues_flatten (sample_env tracker_ok llm_ok) [sample_issue]).
  reflexivity.
Defined.

(** X13: an issue whose [fields] block is missing, or is an object
    without [issuetype], cannot be normalised: the lookup of the type
    name is made on the string "Unknown" and raises. *)
Theorem extract_issue_data_needs_issuetype d :
  (dict_lookup "fields" d = None
   \/ exists f, dict_lookup "fields" d = Some (PDict f)
                /\ dict_lookup "issuetype" f = None) ->
  extract_issue_data (PDict d)
  = Raise (Exn AttributeError "'str' object has no attribute 'get'").
Proof.
  unfold extract_issue_data. simpl.
  intros [Hf | (f & Hf & Hit)]; rewrite Hf; simpl; [reflexivity|].
  rewrite Hit. reflexivity.
Qed.

Lemma extract_issue_data_needs_issuetype_witness :
  extract_issue_data (PDict [("key", PStr "PROJ-9")])
  = Raise (Exn AttributeError "'str' object has no attribute 'get'").
Proof.
  apply extract_issue_data_needs_issuetype. left. reflexivity.
Defined.

(** ** More on [run] *)

Lemma py_iter_truthy v elements :
  py_iter v = Ok elements -> elements <> [] -> py_truthy v = true.
Proof.
  destruct v; simpl; intros [= <-] Hne; try reflexivity.
  - destruct s; [contradiction | reflexivity].
  - destruct l; [contradiction | reflexivity].
  - destruct d; [contradiction | reflexivity].
Qed.

(** What a run does, by the value fetched and the outcome of preparing
    the issues. *)
Lemma run_summary env pn fs :
  let o := run env pn fs in
  exists v,
    value (fetch_issues env pn fs) = Ok v
    /\ (length (gets (emitted o)) <= 1)%nat
    /\ ((py_truthy v = false /\ value o = Ok tt
         /\ posts (emitted o) = [] /\ saves (emitted o) = [] /\ disk o = fs)
        \/ (py_truthy v = true
            /\ exists e, prepared env v = Raise e /\ value o = Raise e
                         /\ posts (emitted o) = [] /\ saves (emitted o) = []
                         /\ disk o = fs)
        \/ (py_truthy v = true
            /\ exists sums text ai a,
                 prepared env v = Ok (sums, text)
                 /\ value (summarize_with_ollama env text fs) = Ok ai
                 /\ value o = Ok tt
                 /\ posts (emitted o) = [a]
                 /\ post_requests (emitted o) = [summarize_request text]
                 /\ saves (emitted o)
                    = saves (emitted (generate_word_document env sums ai pn
                                        DEFAULT_FILENAME fs))
                 /\ disk o
                    = disk (generate_word_document env sums ai pn
                              DEFAULT_FILENAME fs)
                 /\ ai = summarized a)).
Proof.
  intros o. subst o.
  destruct (run_cases env pn fs) as (evf & Hf & Hfp & Hfs & Hfl & Hrun).
  cbv zeta in Hrun. exists (fetched_from (gets evf)).
  split; [rewrite Hf; reflexivity|].
  destruct Hrun as [[Ht Hrun] | [(Ht & e & lines & Hp & Hrun)
                               | (Ht & sums & text & lines & a & evs & evg & dg
                                  & Hp & Hs & Hg & Hrun)]];
    rewrite Hrun; cbn [emitted disk value];
    rewrite ?gets_app, ?posts_app, ?saves_app, ?post_requests_app, ?Hfp, ?Hfs,
      ?(posts_requests_nil _ Hfp);
    try destruct (prints_silent lines) as (Hlg & Hlp & Hls & Hlr);
    rewrite ?Hlg, ?Hlp, ?Hls, ?Hlr.
  - split; [simpl; rewrite app_nil_r; exact Hfl|]. left. repeat split; auto.
  - split; [simpl; rewrite app_nil_r; exact Hfl|]. right. left.
    split; [exact Ht|]. exists e. repeat split; auto.
  - destruct (summarize_eq env text fs)
      as (a' & evs' & Hs' & Hsg & Hsp & Hss & Hsr).
    rewrite Hs in Hs'. injection Hs' as Ha <-.
    destruct (generate_word_document_char env sums (summarized a) pn
                DEFAULT_FILENAME fs) as (_ & Hgg & Hgp & Hgr & _).
    rewrite Hg in Hgg, Hgp, Hgr. simpl in Hgg, Hgp, Hgr.
    rewrite Hsg, Hsp, Hss, Hsr, Hgg, Hgp, Hgr.
    split; [simpl; rewrite app_nil_r; exact Hfl|]. right. right.
    split; [exact Ht|]. exists sums, text, (summarized a), a'.
    rewrite Hs, Hg. simpl. rewrite app_nil_r. repeat split; auto.
Qed.

(** X14: one issue that cannot be normalised aborts the whole run: [run]
    raises, nothing is posted to the summarizer, no document is handed
    to [doc.save] and the disk is as it was, whatever the other issues
    are. *)
Theorem run_aborted_by_bad_issue env pn fs v elements issue e0 :
  value (fetch_issues env pn fs) = Ok v ->
  py_iter v = Ok elements ->
  In issue elements ->
  extract_issue_data issue = Raise e0 ->
  let o := run env pn fs in
  (exists e, value o = Raise e)
  /\ posts (emitted o) = [] /\ saves (emitted o) = [] /\ disk o = fs.
Proof.
  intros Hv Hiter Hin Hbad o. subst o.
  destruct (run_summary env pn fs) as (v' & Hv' & _ & Hrun).
  rewrite Hv in Hv'. injection Hv' as <-.
  assert (Ht : py_truthy v = true).
  { apply (py_iter_truthy _ _ Hiter). intros ->. contradiction. }
  destruct (rmap_raise_in _ _ _ _ Hin Hbad) as (e' & He').
  assert (Hprep : prepared env v = Raise e')
    by (unfold prepared; rewrite Hiter; simpl; rewrite He'; reflexivity).
  destruct Hrun as [(Hf & _) | [(_ & e & _ & Hr & Hp & Hs & Hd)
                               | (_ & sums & text & ai & a & Hok & _)]].
  - congruence.
  - eauto.
  - congruence.
Qed.

Lemma run_aborted_by_bad_issue_witness :
  (exists e, value (run (sample_env tracker_bad_issue llm_ok) "P" ∅) = Raise e)
  /\ posts (emitted (run (sample_env tracker_bad_issue llm_ok) "P" ∅)) = []
  /\ saves (emitted (run (sample_env tracker_bad_issue llm_ok) "P" ∅)) = []
  /\ disk (run (sample_env tracker_bad_issue llm_ok) "P" ∅) = ∅.
Proof.
  refine (run_aborted_by_bad_issue (sample_env tracker_bad_issue llm_ok) "P" ∅
            (PList [sample_issue; issue_without_issuetype])
            [sample_issue; issue_without_issuetype] issue_without_issuetype
            (Exn AttributeError "'str' object has no attribute 'get'")
            _ _ _ _).
  - reflexivity.
  - reflexivity.
  - simpl. right. left. reflexivity.
  - reflexivity.
Defined.

Lemma effects_app l1 l2 : effects (l1 ++ l2) = effects l1 ++ effects l2.
Proof. apply filter_app. Qed.

Lemma effects_prints lines : effects (map EvPrint lines) = [].
Proof. induction lines; [reflexivity | assumption]. Qed.

Lemma fetch_issues_effects env pn fs :
  let evf := emitted (fetch_issues env pn fs) in
  (effects evf = [] /\ gets evf = [])
  \/ exists req a, effects evf = [EvGet req a] /\ gets evf = [a].
Proof.
  fetch_cases env;
    first [ left; split; reflexivity
          | right; do 2 eexists; split; reflexivity ].
Qed.

Lemma summarize_effects env text fs :
  exists a,
    effects (emitted (summarize_with_ollama env text fs))
    = [EvPost (summarize_request text) a]
    /\ posts (emitted (summarize_with_ollama env text fs)) = [a].
Proof. summarize_cases env; eexists; split; reflexivity. Qed.

Lemma generate_word_document_effects env issues ai_summary project_name filename fs :
  effects (emitted (generate_word_document env issues ai_summary project_name
                                           filename fs))
  = match build_document issues ai_summary project_name with
    | Ok doc => [EvSave filename doc (save_error env filename)]
    | Raise _ => []
    end.
Proof.
  destruct (build_document issues ai_summary project_name) as [doc|e] eqn:Hb.
  - rewrite (generate_word_document_built _ _ _ _ _ _ _ Hb).
    destruct (save_error env filename); reflexivity.
  - rewrite (generate_word_document_not_built _ _ _ _ _ _ _ Hb). reflexivity.
Qed.

(** X15: leaving the printed lines aside, what a run does is, in this
    order: nothing; or one GET; or one GET and then one POST of the
    summarizer request; or one GET, that POST and then one call of
    [doc.save] under the default file name.  It posts only when the
    value fetched from the GET's answer is not empty, and it changes no
    file but the default one. *)
Theorem run_effects env pn fs :
  let o := run env pn fs in
  (effects (emitted o) = []
   \/ (exists req a, effects (emitted o) = [EvGet req a])
   \/ (exists req a text b,
         effects (emitted o)
         = [EvGet req a; EvPost (summarize_request text) b]
         /\ value (fetch_issues env pn fs) = Ok (fetched a)
         /\ py_truthy (fetched a) = true)
   \/ (exists req a text b doc,
         effects (emitted o)
         = [EvGet req a; EvPost (summarize_request text) b;
            EvSave "JIRA_Summary_Report.docx" doc
                   (save_error env "JIRA_Summary_Report.docx")]
         /\ value (fetch_issues env pn fs) = Ok (fetched a)
         /\ py_truthy (fetched a) = true))
  /\ (forall f, f <> "JIRA_Summary_Report.docx" -> disk o !! f = fs !! f).
Proof.
  intros o. subst o.
  pose proof (fetch_issues_effects env pn fs) as Hfe. cbv zeta in Hfe.
  destruct (run_cases env pn fs) as (evf & Hf & Hfp & Hfs & _ & Hrun).
  rewrite Hf in Hfe. cbn [emitted] in Hfe. cbv zeta in Hrun.
  destruct Hrun as [[_ Hrun] | [(_ & e & lines & _ & Hrun)
                               | (Ht & sums & text & lines & a & evs & evg & dg
                                  & Hp & Hs & Hg & Hrun)]];
    rewrite Hrun; cbn [emitted disk]; rewrite !effects_app, ?effects_prints.
  - split; [|reflexivity].
    destruct Hfe as [[-> _] | (req & a & -> & _)]; [left; reflexivity|].
    right. left. eauto.
  - split; [|reflexivity].
    destruct Hfe as [[-> _] | (req & a & -> & _)]; [left; reflexivity|].
    right. left. eauto.
  - destruct Hfe as [[_ Hge] | (req & g & Hfe & Hge)];
      rewrite Hge in Ht; [discriminate Ht|].
    change (fetched_from [g]) with (fetched g) in Ht.
    rewrite Hge in Hf. change (fetched_from [g]) with (fetched g) in Hf.
    destruct (summarize_effects env text fs) as (b & Hse & _).
    rewrite Hs in Hse. cbn [emitted] in Hse.
    pose proof (generate_word_document_effects env sums (summarized a) pn
                  DEFAULT_FILENAME fs) as Hge'.
    destruct (generate_word_document_char env sums (summarized a) pn
                DEFAULT_FILENAME fs) as (_ & _ & _ & _ & Hgd).
    rewrite Hg in Hge', Hgd. cbn [emitted disk] in Hge', Hgd.
    rewrite Hfe, Hse, Hge', Hf. cbn [value].
    destruct (build_document sums (summarized a) pn) as [doc|e];
      destruct Hgd as [_ ->].
    + split.
      * right. right. right. exists req, g, text, b, doc. auto.
      * intros f Hne.
        assert (Hne' : DEFAULT_FILENAME <> f)
          by (intros Heq; apply Hne; rewrite <- Heq; reflexivity).
        destruct (save_error env DEFAULT_FILENAME);
          [apply lookup_partial_alter_ne | apply lookup_insert_ne]; exact Hne'.
    + split; [|reflexivity].
      right. right. left. exists req, g, text, b. auto.
Qed.

Lemma run_effects_witness :
  disk (run (sample_env tracker_ok llm_ok) "P" {["notes.docx" := []]})
    !! "notes.docx"
  = ({["notes.docx" := []]} : gmap string Docx.document) !! "notes.docx".
Proof.
  refine (proj2 (run_effects (sample_env tracker_ok llm_ok) "P"
                   {["notes.docx" := []]}) "notes.docx" _).
  intros H. discriminate H.
Defined.



(** X17: whenever a run hands a document to [doc.save], the fetch
    returned a value that can be iterated and the table of the document
    has one row more than that value has elements. *)
Theorem run_table_has_a_row_per_issue env pn fs f doc err :
  In (f, doc, err) (saves (emitted (run env pn fs))) ->
  exists v elements rows,
    value (fetch_issues env pn fs) = Ok v
    /\ py_iter v = Ok elements
    /\ Docx.tables doc = [rows]
    /\ length rows = S (length elements).
Proof.
  intros Hin.
  destruct (run_summary env pn fs) as (v & Hv & _ & Hrun).
  destruct Hrun as [(_ & _ & _ & Hs & _)
                   | [(_ & e & _ & _ & _ & Hs & _)
                     | (_ & sums & text & ai & a & Hprep & _ & _ & _ & _ & Hs & _)]];
    rewrite Hs in Hin; try contradiction.
  destruct (prepared_inv _ _ _ _ Hprep) as (elements & Hiter & Hsums & _).
  apply rmap_Forall2, Forall2_length in Hsums.
  destruct (build_document sums ai pn) as [doc'|e] eqn:Hb.
  - rewrite (generate_word_document_built _ _ _ _ _ _ _ Hb) in Hin.
    assert (doc' = doc) as ->
        by (destruct (save_error env DEFAULT_FILENAME); simpl in Hin;
            destruct Hin as [[= _ <- _]|[]]; reflexivity).
    destruct (build_document_structure_rows _ _ _ _ Hb) as (rows & Htab & Hlen).
    exists v, elements, (HEADER :: rows).
    repeat split; auto. simpl. congruence.
  - rewrite (generate_word_document_not_built _ _ _ _ _ _ _ Hb) in Hin.
    contradiction.
Qed.

Lemma run_table_has_a_row_per_issue_witness :
  exists v elements (rows : list (list string)),
    value (fetch_issues (sample_env tracker_ok llm_ok) "P" ∅) = Ok v
    /\ py_iter v = Ok elements
    /\ length elements = 1%nat
    /\ length rows = 2%nat.
Proof.
  destruct (run_table_has_a_row_per_issue (sample_env tracker_ok llm_ok) "P" ∅
              DEFAULT_FILENAME
              [Docx.Heading "P: Tasks completed or to be continued in the upcoming month."
                            1 (Some 1);
               Docx.Tbl (Docx.Table (Some "Table Grid") 4
                           [HEADER; ["Bug"; "PROJ-1"; "Fix crash"; "Open"]]);
               Docx.Heading "Project Summary" 2 None;
               Docx.Paragraph "All systems stable.";
               Docx.PageBreak]
              None)
    as (v & elements & rows & Hv & Hiter & _ & Hlen).
  - vm_compute. left. reflexivity.
  - exists v, elements, rows. split; [exact Hv|]. split; [exact Hiter|].
    simpl in Hv. injection Hv as <-. simpl in Hiter. injection Hiter as <-.
    split; [reflexivity | exact Hlen].
Defined.

(** ** [main] *)

Lemma main_invalid env fs e :
  validate_config env = Raise e ->
  main env fs = Outcome (Ok tt) fs (main_error_lines e).
Proof.
  intros H. unfold main, try_except, JiraToDocxAutomation, bind, lift.
  rewrite H. reflexivity.
Qed.

Lemma main_valid env fs :
  validate_config env = Ok tt ->
  main env fs
  = match run env "Index of NCI Studies" fs with
    | Outcome (Ok a) d evs => Outcome (Ok a) d evs
    | Outcome (Raise e) d evs => Outcome (Ok tt) d (evs ++ main_error_lines e)
    end.
Proof.
  intros H. unfold main, try_except, JiraToDocxAutomation.
  rewrite H. cbn [rbind]. rewrite bind_lift_ok. cbn [self_project_name].
  destruct (run env "Index of NCI Studies" fs) as [[a|e] d evs]; reflexivity.
Qed.

(** X18: [main] never raises.  With a configuration the constructor
    rejects it sends nothing, saves nothing, leaves the disk as it was
    and prints the error followed by the four lines of advice. *)
Theorem main_never_raises env fs :
  value (main env fs) = Ok tt
  /\ (forall e,
        validate_config env = Raise e ->
        main env fs
        = Outcome (Ok tt) fs
            [EvPrint ("Error: " +:+ exn_msg e);
             EvPrint (nl +:+ "Please ensure:");
             EvPrint "1. Your .env file is properly configured";
             EvPrint "2. Ollama is running locally with llama3 model";
             EvPrint "3. Your JIRA credentials are correct"]).
Proof.
  split; [|intros e He; apply (main_invalid env fs e He)].
  destruct (validate_config env) as [[]|e] eqn:Hv.
  - rewrite (main_valid env fs Hv).
    destruct (run env "Index of NCI Studies" fs) as [[[]|e] d evs]; reflexivity.
  - rewrite (main_invalid env fs e Hv). reflexivity.
Qed.

Lemma main_never_raises_witness :
  main env_placeholder ∅
  = Outcome (Ok tt) ∅
      [EvPrint "Error: JIRA_TOKEN must be set in .env file";
       EvPrint (nl +:+ "Please ensure:");
       EvPrint "1. Your .env file is properly configured";
       EvPrint "2. Ollama is running locally with llama3 model";
       EvPrint "3. Your JIRA credentials are correct"].
Proof.
  apply (proj2 (main_never_raises env_placeholder ∅)
               (Exn ValueError "JIRA_TOKEN must be set in .env file")).
  reflexivity.
Defined.

(** X19: with a configuration the constructor accepts, [main] is the run
    for the project "Index of NCI Studies": the same requests, the same
    saves and the same disk; when the run returns, the same trace; when
    the run raises [e], the trace of the run followed by the error and
    the advice. *)
Theorem main_runs_default_project env fs :
  validate_config env = Ok tt ->
  let r := run env "Index of NCI Studies" fs in
  let o := main env fs in
  disk o = disk r
  /\ gets (emitted o) = gets (emitted r)
  /\ posts (emitted o) = posts (emitted r)
  /\ saves (emitted o) = saves (emitted r)
  /\ match value r with
     | Ok _ => emitted o = emitted r
     | Raise e =>
         emitted o
         = emitted r
           ++ [EvPrint ("Error: " +:+ exn_msg e);
               EvPrint (nl +:+ "Please ensure:");
               EvPrint "1. Your .env file is properly configured";
               EvPrint "2. Ollama is running locally with llama3 model";
               EvPrint "3. Your JIRA credentials are correct"]
     end.
Proof.
  intros Hv r o. subst r o. rewrite (main_valid env fs Hv).
  destruct (run env "Index of NCI Studies" fs) as [[a|e] d evs]; simpl.
  - repeat split; reflexivity.
  - rewrite gets_app, posts_app, saves_app. simpl. rewrite !app_nil_r.
    repeat split; reflexivity.
Qed.

Lemma main_runs_default_project_witness :
  saved_content (emitted (main (sample_env tracker_ok llm_ok) ∅))
  = [([[HEADER; ["Bug"; "PROJ-1"; "Fix crash"; "Open"]]],
      ["All systems stable."])].
Proof.
  destruct (main_runs_default_project (sample_env tracker_ok llm_ok) ∅ eq_refl)
    as (_ & _ & _ & Hs & _).
  unfold saved_content. rewrite Hs. reflexivity.
Defined.
